(** * wallabag-sync: the sync engine and the CSV importer of [wallabag-sync.py]

    A shallow embedding of class [Wallabagsync].  Python strings are
    sequences of Unicode code points, epoch times are rationals, the
    HTTP server, the clock and the file system are an explicit [world],
    and the methods are computations in a state-and-exception monad over
    the object's fields, the files it writes and the log. *)

From Stdlib Require Import String Ascii.
From Stdlib Require Import List NArith ZArith QArith Qround Bool Arith Lia Lqa
  Permutation.
Import ListNotations.

Local Open Scope list_scope.

(** ** Python strings *)

Module PyStr.

(** A [str] is a list of code points; [len] is [length], [s[:n]] is [firstn n s]. *)
Definition codepoint := N.
Definition pystr := list codepoint.

(** ASCII literal of the source. *)
Definition lit (s : string) : pystr :=
  map N_of_ascii (list_ascii_of_string s).
Arguments lit s%_string.

(** [str.isspace] for one code point: the code points [str.strip()] removes. *)
Definition is_space (c : codepoint) : bool :=
  ((9 <=? c) && (c <=? 13) || (28 <=? c) && (c <=? 32)
   || (c =? 133) || (c =? 160) || (c =? 5760)
   || (8192 <=? c) && (c <=? 8202)
   || (c =? 8232) || (c =? 8233) || (c =? 8239) || (c =? 8287)
   || (c =? 12288))%N.

Fixpoint lstrip (s : pystr) : pystr :=
  match s with
  | [] => []
  | c :: s' => if is_space c then lstrip s' else s
  end.

Definition rstrip (s : pystr) : pystr := rev (lstrip (rev s)).

(** [s.strip()] *)
Definition strip (s : pystr) : pystr := rstrip (lstrip s).

(** Truthiness of a [str]: non-empty. *)
Definition truthy (s : pystr) : bool :=
  match s with [] => false | _ :: _ => true end.

(** [s.replace(old, new)] for a one-character [old]. *)
Definition replace_char (old : codepoint) (new : pystr) (s : pystr) : pystr :=
  flat_map (fun c => if (c =? old)%N then new else [c]) s.

Fixpoint starts_with (p s : pystr) : bool :=
  match p, s with
  | [], _ => true
  | _ :: _, [] => false
  | a :: p', b :: s' => (a =? b)%N && starts_with p' s'
  end.

(** [p in s] *)
Fixpoint contains (p s : pystr) : bool :=
  starts_with p s || match s with [] => false | _ :: s' => contains p s' end.

(** [s.lower()], as far as a search for ASCII letters can tell: [A-Z] go to
    [a-z], U+0130 goes to [i] followed by U+0307, and no other code point
    lowers to anything containing one of the letters of [title] or [url]. *)
Definition lower_char (c : codepoint) : pystr :=
  if ((65 <=? c) && (c <=? 90))%N then [(c + 32)%N]
  else if (c =? 304)%N then [105%N; 775%N]
  else [c].

Definition lower (s : pystr) : pystr := flat_map lower_char s.

End PyStr.
Import PyStr.

(** ** [sanitize_filename] *)

(** The character class of the regular expression: the code points of
    less-than, greater-than, colon, double quote, slash, backslash, bar,
    question mark and star. *)
Definition is_problematic (c : codepoint) : bool :=
  existsb (N.eqb c) [60; 62; 58; 34; 47; 92; 124; 63; 42]%N.

(** [re.sub] of that class by an underscore. *)
Definition re_sub_problematic (filename : pystr) : pystr :=
  map (fun c => if is_problematic c then 95%N else c) filename.

Definition sanitize_filename (filename : pystr) : pystr :=
  let filename := re_sub_problematic filename in
  let filename := strip filename in
  let filename :=
    if (200 <? length filename)%nat then firstn 200 filename else filename in
  if truthy filename then filename else lit "untitled".

(** ** Data *)

(** The [datetime] library, as far as the script uses it.
    [fromisoformat] returns [None] where Python raises [ValueError]. *)
Class DatetimeLib : Type := {
  datetime : Type;
  fromisoformat : pystr -> option datetime;
  timestamp : datetime -> Q;
  strftime : datetime -> pystr -> pystr
}.

(** An entry of the remote service: a JSON object of which the script
    reads these keys ([None]: the key is missing, so [entry.get] gives its
    default).  The object has further keys, so it is truthy. *)
Record entry : Type := {
  e_id : option Z;
  e_title : option pystr;
  e_url : option pystr;
  e_content : option pystr;
  e_created_at : option pystr
}.

(** [d.get(key, default)] *)
Definition get_or {A : Type} (v : option A) (default : A) : A :=
  match v with Some a => a | None => default end.

(** Outcome of one [requests] call followed by [raise_for_status]:
    a 2xx body, an [HTTPError] carrying the response and its status, or a
    [RequestException] without response. *)
Inductive http_result (A : Type) : Type :=
| Http2xx (body : A)
| HttpError (status : nat)
| NoResponse.
Arguments Http2xx {A} body.
Arguments HttpError {A} status.
Arguments NoResponse {A}.

(** The requests the script sends; [token] is the bearer token of the
    Authorization header. *)
Inductive request : Type :=
| POST_token
| GET_entries (token : option pystr) (since : option Z)
| GET_entry (token : option pystr) (entry_id : option Z)
| POST_entries (token : option pystr) (url : pystr)
               (title tags : option pystr).

(** Everything outside the process.  The server and the clock are given
    the requests sent so far, most recent first (for a response, the
    request being answered is the head). *)
Record world : Type := {
  time_time : list request -> Q;
  oauth_token : list request -> http_result pystr;
  api_entries : list request -> http_result (list entry);
  api_entry : list request -> http_result entry;
  api_create : list request -> http_result entry;
  file_writable : pystr -> bool
}.

Inductive level : Type := INFO | WARNING | ERROR.

Inductive exn : Type :=
| AttributeError (attribute : pystr)
| StopIteration.

(** What a [RequestException] handler prints of the exception. *)
Definition failure_of {A : Type} (r : http_result A) : option nat :=
  match r with HttpError st => Some st | _ => None end.

(** The log lines, one constructor per [logging] call of the source. *)
Inductive message : Type :=
| Token_obtained
| Token_failed (e : option nat)
| Retrieved_entries (n : nat)
| Get_entries_failed (e : option nat)
| Get_entry_content_failed (entry_id : option Z) (e : option nat)
| Added_entry (name : pystr)
| Entry_already_exists (name : pystr)
| Add_entry_failed (name : pystr) (e : option nat)
| Csv_not_found
| Csv_import_starting
| Dry_run_mode
| Row_not_enough_columns (row_num : nat)
| Row_empty_url (row_num : nat)
| Processing (title url : pystr)
| Csv_read_error (e : exn)
| Csv_import_completed
| Imported (n : nat)
| Errors (n : nat)
| Skipped (n : nat)
| No_full_content (entry_id : option Z)
| Exported (filename : pystr)
| Save_failed (filename : pystr)
| Checking_for_new_entries
| No_new_entries_found
| Found_new_entries (n : nat)
| Successfully_exported (n : nat)
| Starting_check
| Output_directory
| Check_completed
| Check_error (e : exn).

(** The object's fields and the files it touches.  [last_check_file] is
    the value stored under [last_check_time] in [last_check.json], [None]
    when there is no file; [log], [requests] and [output_files] grow at
    the head. *)
Record state : Type := {
  access_token : option pystr;
  last_check_file : option Q;
  output_files : list (pystr * pystr);
  log : list (level * message);
  requests : list request
}.

(** ** The monad: state, and exceptions that keep the state *)

Inductive outcome (A : Type) : Type :=
| Returned (a : A)
| Raised (e : exn).
Arguments Returned {A} a.
Arguments Raised {A} e.

Definition M (A : Type) : Type := state -> outcome A * state.

Definition ret {A : Type} (a : A) : M A := fun s => (Returned a, s).

Definition bind {A B : Type} (m : M A) (k : A -> M B) : M B :=
  fun s =>
    match m s with
    | (Returned a, s') => k a s'
    | (Raised e, s') => (Raised e, s')
    end.

Definition raise {A : Type} (e : exn) : M A := fun s => (Raised e, s).

(** [try: m  except Exception as e: h e] *)
Definition try_except {A : Type} (m : M A) (h : exn -> M A) : M A :=
  fun s =>
    match m s with
    | (Returned a, s') => (Returned a, s')
    | (Raised e, s') => h e s'
    end.

Declare Scope monad_scope.
Delimit Scope monad_scope with monad.
Notation "x <- m ;; k" := (bind m (fun x => k))
  (at level 61, m at next level, right associativity) : monad_scope.
Notation "m ;; k" := (bind m (fun _ => k))
  (at level 61, right associativity) : monad_scope.
Local Open Scope monad_scope.

Definition add_log (l : level) (m : message) (s : state) : state :=
  {| access_token := access_token s;
     last_check_file := last_check_file s;
     output_files := output_files s;
     log := (l, m) :: log s;
     requests := requests s |}.

Definition with_token (t : option pystr) (s : state) : state :=
  {| access_token := t;
     last_check_file := last_check_file s;
     output_files := output_files s;
     log := log s;
     requests := requests s |}.

Definition with_last_check (t : option Q) (s : state) : state :=
  {| access_token := access_token s;
     last_check_file := t;
     output_files := output_files s;
     log := log s;
     requests := requests s |}.

Definition add_request (r : request) (s : state) : state :=
  {| access_token := access_token s;
     last_check_file := last_check_file s;
     output_files := output_files s;
     log := log s;
     requests := r :: requests s |}.

Definition add_file (filename content : pystr) (s : state) : state :=
  {| access_token := access_token s;
     last_check_file := last_check_file s;
     output_files := (filename, content) :: output_files s;
     log := log s;
     requests := requests s |}.

Definition logging (l : level) (m : message) : M unit :=
  fun s => (Returned tt, add_log l m s).

Definition set_access_token (t : pystr) : M unit :=
  fun s => (Returned tt, with_token (Some t) s).

(** Sends [r] and gives the requests sent so far, [r] first. *)
Definition send (r : request) : M (list request) :=
  fun s => (Returned (r :: requests s), add_request r s).

Definition read {A : Type} (f : state -> A) : M A :=
  fun s => (Returned (f s), s).

(** Truthiness of [self.access_token] and of other optional strings. *)
Definition truthy_opt (t : option pystr) : bool :=
  match t with Some t => truthy t | None => false end.

(** Truthiness of a float, as in [if last_check:]. *)
Definition truthy_float (q : Q) : bool := negb (Qeq_bool q 0).

(** [int(x)] of a float: truncation towards zero. *)
Definition int_of_float (q : Q) : Z := Z.quot (Qnum q) (Zpos (Qden q)).

(** [a > b] on floats. *)
Definition float_gt (a b : Q) : bool := negb (Qle_bool a b).

(** ** The methods of [Wallabagsync] *)

(** A literal of the HTML template.  The template holds double quotes;
    in these literals the tilde stands for the double quote. *)
Definition tpl (s : string) : pystr := replace_char 126%N [34%N] (lit s).
Arguments tpl s%_string.

Section Wallabagsync.

Context {DT : DatetimeLib}.
Variable w : world.

Definition get_access_token : M bool :=
  sent <- send POST_token ;;
  match oauth_token w sent with
  | Http2xx token =>
      set_access_token token ;;
      logging INFO Token_obtained ;;
      ret true
  | r =>
      logging ERROR (Token_failed (failure_of r)) ;;
      ret false
  end.

Definition get_last_check_time : M (option Q) := read last_check_file.

Definition save_last_check_time (timestamp : Q) : M unit :=
  fun s => (Returned tt, with_last_check (Some timestamp) s).

(** The guard that opens every API method:
    [if not self.access_token: if not self.get_access_token(): return ...];
    [false] when the method has to give up. *)
Definition ensure_token : M bool :=
  token <- read access_token ;;
  if negb (truthy_opt token) then get_access_token else ret true.

(** The [since] parameter of the listing request. *)
Definition since_param (since_timestamp : option Q) : option Z :=
  match since_timestamp with
  | Some t => if truthy_float t then Some (int_of_float t) else None
  | None => None
  end.

Definition get_entries (since_timestamp : option Q) : M (list entry) :=
  ok <- ensure_token ;;
  if negb ok then ret []
  else
    token <- read access_token ;;
    sent <- send (GET_entries token (since_param since_timestamp)) ;;
    match api_entries w sent with
    | Http2xx entries =>
        logging INFO (Retrieved_entries (List.length entries)) ;;
        ret entries
    | r =>
        logging ERROR (Get_entries_failed (failure_of r)) ;;
        ret []
    end.

Definition get_entry_content (entry_id : option Z) : M (option entry) :=
  ok <- ensure_token ;;
  if negb ok then ret None
  else
    token <- read access_token ;;
    sent <- send (GET_entry token entry_id) ;;
    match api_entry w sent with
    | Http2xx full => ret (Some full)
    | r =>
        logging ERROR (Get_entry_content_failed entry_id (failure_of r)) ;;
        ret None
    end.

(** [datetime.fromisoformat(created_at.replace('Z', '+00:00'))] *)
Definition parse_created_at (created_at : pystr) : option datetime :=
  fromisoformat (replace_char 90%N (lit "+00:00") created_at).

Definition create_html_export (entry : entry) : pystr :=
  let title := get_or (e_title entry) (lit "Untitled") in
  let url := get_or (e_url entry) [] in
  let content := get_or (e_content entry) [] in
  let created_at := get_or (e_created_at entry) [] in
  let formatted_date :=
    match parse_created_at created_at with
    | Some created_dt => strftime created_dt (lit "%Y-%m-%d %H:%M:%S")
    | None => created_at
    end in
  tpl "<!DOCTYPE html>
<html lang=~en~>
<head>
    <meta charset=~UTF-8~>
    <meta name=~viewport~ content=~width=device-width, initial-scale=1.0~>
    <title>"
  ++ title
  ++ tpl "</title>
    <style>
        body {
            font-family: -apple-system, BlinkMacSystemFont, 'Segoe UI', Roboto, sans-serif;
            max-width: 800px;
            margin: 0 auto;
            padding: 20px;
            line-height: 1.6;
            color: #333;
        }
        .header {
            border-bottom: 1px solid #eee;
            padding-bottom: 20px;
            margin-bottom: 30px;
        }
        .title {
            font-size: 2em;
            font-weight: bold;
            margin-bottom: 10px;
        }
        .meta {
            color: #666;
            font-size: 0.9em;
        }
        .url {
            word-break: break-all;
            margin: 10px 0;
        }
        .content {
            margin-top: 30px;
        }
        .content img {
            max-width: 100%;
            height: auto;
        }
    </style>
</head>
<body>
    <div class=~header~>
        <div class=~title~>"
  ++ title
  ++ tpl "</div>
        <div class=~meta~>
            <div>Saved on: "
  ++ formatted_date
  ++ tpl "</div>
            <div class=~url~>Original URL: <a href=~"
  ++ url
  ++ tpl "~>"
  ++ url
  ++ tpl "</a></div>
        </div>
    </div>
    <div class=~content~>
        "
  ++ content
  ++ tpl "
    </div>
</body>
</html>".

(** What [add_entry_to_wallabag] returns: the created resource, [True]
    or [False]. *)
Inductive add_result : Type :=
| Entry_created (entry : entry)
| Already_exists
| Add_failed.

Definition truthy_add (r : add_result) : bool :=
  match r with Add_failed => false | _ => true end.

Definition add_entry_to_wallabag (url : pystr) (title tags : option pystr)
  : M add_result :=
  ok <- ensure_token ;;
  if negb ok then ret Add_failed
  else
    token <- read access_token ;;
    let data_title := if truthy_opt title then title else None in
    let data_tags := if truthy_opt tags then tags else None in
    let title_or_url := if truthy_opt title then get_or title [] else url in
    sent <- send (POST_entries token url data_title data_tags) ;;
    match api_create w sent with
    | Http2xx entry =>
        logging INFO (Added_entry title_or_url) ;;
        ret (Entry_created entry)
    | HttpError status =>
        if (status =? 409)%nat then
          logging INFO (Entry_already_exists title_or_url) ;;
          ret Already_exists
        else
          logging ERROR (Add_entry_failed title_or_url (Some status)) ;;
          ret Add_failed
    | NoResponse =>
        logging ERROR (Add_entry_failed title_or_url None) ;;
        ret Add_failed
    end.

(** An existing CSV file as the script reads it: what [f.readline()]
    gives for the first line, and the rows [csv.reader(f)] yields. *)
Record csv_text : Type := {
  readline : pystr;
  reader : list (list pystr)
}.

(** The three counters of [import_from_csv]. *)
Record counts : Type := {
  imported_count : nat;
  error_count : nat;
  skipped_count : nat
}.

Definition imported_incr (c : counts) : counts :=
  {| imported_count := S (imported_count c);
     error_count := error_count c;
     skipped_count := skipped_count c |}.

Definition error_incr (c : counts) : counts :=
  {| imported_count := imported_count c;
     error_count := S (error_count c);
     skipped_count := skipped_count c |}.

Definition skipped_incr (c : counts) : counts :=
  {| imported_count := imported_count c;
     error_count := error_count c;
     skipped_count := S (skipped_count c) |}.

(** The tags of a row: column 4, when there and not blank. *)
Definition row_tags (row : list pystr) : option pystr :=
  if (4 <? List.length row)%nat && truthy (strip (nth 4 row []))
  then Some (strip (nth 4 row []))
  else None.

(** The body of the [for row_num, row in enumerate(reader, start=1)] loop
    ([time.sleep] changes nothing that is modelled). *)
Definition import_row (dry_run : bool) (row_num : nat) (row : list pystr)
  (c : counts) : M counts :=
  if (List.length row <? 2)%nat then
    logging WARNING (Row_not_enough_columns row_num) ;;
    ret (skipped_incr c)
  else
    let title := strip (nth 0 row []) in
    let url := strip (nth 1 row []) in
    if negb (truthy url) then
      logging WARNING (Row_empty_url row_num) ;;
      ret (skipped_incr c)
    else
      let tags := row_tags row in
      logging INFO (Processing title url) ;;
      if negb dry_run then
        r <- add_entry_to_wallabag url (Some title) tags ;;
        ret (if truthy_add r then imported_incr c else error_incr c)
      else
        ret (imported_incr c).

Fixpoint import_rows (dry_run : bool) (row_num : nat)
  (rows : list (list pystr)) (c : counts) : M counts :=
  match rows with
  | [] => ret c
  | row :: rest =>
      c' <- import_row dry_run row_num row c ;;
      import_rows dry_run (S row_num) rest c'
  end.

(** Whether the first line looks like a header. *)
Definition has_header (f : csv_text) : bool :=
  let first_line := strip (readline f) in
  contains (lit "title") (lower first_line)
  || contains (lit "url") (lower first_line).

(** [next(reader)] when there is a header: the rows left to the loop. *)
Definition skip_header (f : csv_text) : M (list (list pystr)) :=
  if has_header f then
    match reader f with
    | [] => raise StopIteration
    | _ :: rest => ret rest
    end
  else ret (reader f).

(** [import_from_csv]; [csv_file] is [None] when the path does not exist.
    The function ends at [return True]. *)
Definition import_from_csv (csv_file : option csv_text) (dry_run : bool)
  : M bool :=
  match csv_file with
  | None =>
      logging ERROR Csv_not_found ;;
      ret false
  | Some f =>
      logging INFO Csv_import_starting ;;
      (if dry_run then logging INFO Dry_run_mode else ret tt) ;;
      r <- try_except
             (rows <- skip_header f ;;
              c <- import_rows dry_run 1 rows
                     {| imported_count := 0; error_count := 0;
                        skipped_count := 0 |} ;;
              ret (Some c))
             (fun e => logging ERROR (Csv_read_error e) ;; ret None) ;;
      match r with
      | None => ret false
      | Some c =>
          logging INFO Csv_import_completed ;;
          logging INFO (Imported (imported_count c)) ;;
          logging INFO (Errors (error_count c)) ;;
          logging INFO (Skipped (skipped_count c)) ;;
          ret true
      end
  end.

(** [open(filepath, 'w')] and [f.write]: [false] when they raise. *)
Definition write_file (filename content : pystr) : M bool :=
  fun s =>
    if file_writable w filename then
      (Returned true, add_file filename content s)
    else (Returned false, s).

(** Lines 349 to 383 of the source: the statements that stand after
    [return True] in the body of [import_from_csv], opened by the string
    [Export a single entry as HTML file.].  No [def] line precedes them,
    so they are unreachable statements of [import_from_csv] and define no
    method.  They are embedded as a function of the [entry] they read, to
    state what they would do. *)
Definition unreachable_export_statements (entry : entry) : M bool :=
  let entry_id := e_id entry in
  let title := get_or (e_title entry) (lit "Untitled") in
  full_entry <- get_entry_content entry_id ;;
  match full_entry with
  | None =>
      logging ERROR (No_full_content entry_id) ;;
      ret false
  | Some full_entry =>
      let html_content := create_html_export full_entry in
      let created_at := get_or (e_created_at entry) [] in
      let date_prefix :=
        match parse_created_at created_at with
        | Some created_dt => strftime created_dt (lit "%Y-%m-%d")
        | None => lit "unknown-date"
        end in
      let filename :=
        date_prefix ++ lit "_" ++ sanitize_filename title ++ lit ".html" in
      written <- write_file filename html_content ;;
      if written then
        logging INFO (Exported filename) ;;
        ret true
      else
        logging ERROR (Save_failed filename) ;;
        ret false
  end.

(** [self.export_entry(entry)]: class [Wallabagsync] has no attribute of
    that name (see [unreachable_export_statements]), so evaluating
    [self.export_entry] raises [AttributeError]. *)
Definition export_entry (entry : entry) : M bool :=
  raise (AttributeError (lit "export_entry")).

(** Whether the re-filter keeps [entry]: its date does not parse, or it
    is later than [last_check]. *)
Definition created_after (last_check : Q) (entry : entry) : bool :=
  let created_at := get_or (e_created_at entry) [] in
  match parse_created_at created_at with
  | Some created_dt =>
      let created_timestamp := timestamp created_dt in
      float_gt created_timestamp last_check
  | None => true
  end.

(** The list [new_entries] of [check_for_new_entries]. *)
Definition new_entries (last_check : option Q) (entries : list entry)
  : list entry :=
  match last_check with
  | Some t =>
      if truthy_float t then filter (created_after t) entries else entries
  | None => entries
  end.

(** [for entry in new_entries: if self.export_entry(entry): exported_count += 1] *)
Fixpoint export_loop (entries : list entry) (exported_count : nat) : M nat :=
  match entries with
  | [] => ret exported_count
  | entry :: rest =>
      exported <- export_entry entry ;;
      export_loop rest (if exported then S exported_count else exported_count)
  end.

Definition check_for_new_entries : M unit :=
  last_check <- get_last_check_time ;;
  current_time <- read (fun s => time_time w (requests s)) ;;
  logging INFO Checking_for_new_entries ;;
  entries <- get_entries last_check ;;
  match entries with
  | [] =>
      logging INFO No_new_entries_found ;;
      save_last_check_time current_time
  | _ :: _ =>
      let new_entries := new_entries last_check entries in
      logging INFO (Found_new_entries (List.length new_entries)) ;;
      exported_count <- export_loop new_entries 0 ;;
      logging INFO (Successfully_exported exported_count) ;;
      save_last_check_time current_time
  end.

Definition run_once : M unit :=
  logging INFO Starting_check ;;
  logging INFO Output_directory ;;
  try_except
    (check_for_new_entries ;;
     logging INFO Check_completed)
    (fun e => logging ERROR (Check_error e) ;; raise e).

End Wallabagsync.

(** ** An instance of the [datetime] library

    [datetime.fromisoformat], [timestamp] and [strftime] on the strings
    of the shape [YYYY-MM-DD?HH:MM:SS+HH:MM] (any character after the
    date, either sign before the offset), which is the shape of
    [datetime.isoformat] for an aware time without microseconds.  Strings
    of other shapes are not covered and get [None]. *)
Module Iso.

Record aware : Type := {
  year : Z; month : Z; day : Z;
  hour : Z; minute : Z; second : Z;
  utcoffset : Z
}.

Definition digit (c : codepoint) : option Z :=
  if ((48 <=? c) && (c <=? 57))%N then Some (Z.of_N c - 48)%Z else None.

Definition num2 (a b : codepoint) : option Z :=
  match digit a, digit b with
  | Some x, Some y => Some (10 * x + y)%Z
  | _, _ => None
  end.

Definition num4 (a b c d : codepoint) : option Z :=
  match num2 a b, num2 c d with
  | Some x, Some y => Some (100 * x + y)%Z
  | _, _ => None
  end.

Definition is_leap (y : Z) : bool :=
  ((y mod 4 =? 0) && (negb (y mod 100 =? 0) || (y mod 400 =? 0)))%Z.

Definition days_in_month (y m : Z) : Z :=
  (if m =? 2 then (if is_leap y then 29 else 28)
   else if (m =? 4) || (m =? 6) || (m =? 9) || (m =? 11) then 30
   else 31)%Z.

Definition valid (d : aware) : bool :=
  ((1 <=? year d) && (year d <=? 9999)
   && (1 <=? month d) && (month d <=? 12)
   && (1 <=? day d) && (day d <=? days_in_month (year d) (month d))
   && (hour d <? 24) && (minute d <? 60) && (second d <? 60)
   && (Z.abs (utcoffset d) <? 86400))%Z.

Definition parse (s : pystr) : option aware :=
  match s with
  | [y1; y2; y3; y4; dash1; m1; m2; dash2; d1; d2; _;
     h1; h2; colon1; mi1; mi2; colon2; s1; s2;
     sign; oh1; oh2; colon3; om1; om2] =>
      if ((dash1 =? 45) && (dash2 =? 45) && (colon1 =? 58) && (colon2 =? 58)
          && (colon3 =? 58) && ((sign =? 43) || (sign =? 45)))%N
      then
        match num4 y1 y2 y3 y4, num2 m1 m2, num2 d1 d2,
              num2 h1 h2, num2 mi1 mi2, num2 s1 s2,
              num2 oh1 oh2, num2 om1 om2 with
        | Some y, Some m, Some d, Some h, Some mi, Some sec,
          Some oh, Some om =>
            let off := (oh * 3600 + om * 60)%Z in
            let r := {| year := y; month := m; day := d;
                        hour := h; minute := mi; second := sec;
                        utcoffset := if (sign =? 45)%N then (- off)%Z
                                     else off |} in
            if valid r then Some r else None
        | _, _, _, _, _, _, _, _ => None
        end
      else None
  | _ => None
  end.

(** Days from 1970-01-01 to the given day of the proleptic Gregorian
    calendar. *)
Definition days_from_civil (y m d : Z) : Z :=
  (let y' := if m <=? 2 then y - 1 else y in
   let era := y' / 400 in
   let yoe := y' - era * 400 in
   let doy := (153 * (if 2 <? m then m - 3 else m + 9) + 2) / 5 + d - 1 in
   let doe := yoe * 365 + yoe / 4 - yoe / 100 + doy in
   era * 146097 + doe - 719468)%Z.

Definition epoch_seconds (d : aware) : Z :=
  (days_from_civil (year d) (month d) (day d) * 86400
   + hour d * 3600 + minute d * 60 + second d - utcoffset d)%Z.

Definition dec2 (z : Z) : pystr :=
  [Z.to_N (48 + z / 10); Z.to_N (48 + z mod 10)].

Definition dec4 (z : Z) : pystr := dec2 (z / 100) ++ dec2 (z mod 100).

(** The directives the script's two formats use. *)
Fixpoint format (d : aware) (fmt : pystr) : pystr :=
  match fmt with
  | [] => []
  | c :: rest =>
      if (c =? 37)%N then
        match rest with
        | [] => [c]
        | k :: rest' =>
            (if (k =? 89)%N then dec4 (year d)
             else if (k =? 109)%N then dec2 (month d)
             else if (k =? 100)%N then dec2 (day d)
             else if (k =? 72)%N then dec2 (hour d)
             else if (k =? 77)%N then dec2 (minute d)
             else if (k =? 83)%N then dec2 (second d)
             else [c; k]) ++ format d rest'
        end
      else c :: format d rest
  end.

#[export] Instance lib : DatetimeLib := {
  datetime := aware;
  fromisoformat := parse;
  timestamp := fun d => inject_Z (epoch_seconds d);
  strftime := format
}.

End Iso.


(** ** Notions the statements use *)

(** The name before the [or]: replaced, stripped and cut. *)
Definition cut_name (filename : pystr) : pystr :=
  let filename := strip (re_sub_problematic filename) in
  if (200 <? List.length filename)%nat then firstn 200 filename else filename.

(** Whether the last character of [s] is white space. *)
Definition ends_with_space (s : pystr) : bool :=
  match rev s with c :: _ => is_space c | [] => false end.

(** A row the importer does not skip: two columns at least and a url
    that is not blank. *)
Definition structurally_valid (row : list pystr) : bool :=
  (2 <=? List.length row)%nat && truthy (strip (nth 1 row [])).

Definition count_valid (rows : list (list pystr)) : nat :=
  List.length (filter structurally_valid rows).

Definition count_skipped (rows : list (list pystr)) : nat :=
  List.length (filter (fun row => negb (structurally_valid row)) rows).

(** The tags the importer sends for a row, read off column 4. *)
Definition column_4_tags (row : list pystr) : option pystr :=
  match nth_error row 4 with
  | Some cell => if truthy (strip cell) then Some (strip cell) else None
  | None => None
  end.

(** The call of [add_entry_to_wallabag] that the importer makes for
    [row] returns something truthy, whatever the state it is made in. *)
Definition add_succeeds (w : world) (row : list pystr) : Prop :=
  forall s, exists r s',
    add_entry_to_wallabag w (strip (nth 1 row [])) (Some (strip (nth 0 row [])))
      (row_tags row) s = (Returned r, s')
    /\ truthy_add r = true.

(** The state in which the loop of [import_from_csv] starts. *)
Definition import_started (dry_run : bool) (s : state) : state :=
  let s := add_log INFO Csv_import_starting s in
  if dry_run then add_log INFO Dry_run_mode s else s.

(** [w] with a listing endpoint that answers every request with an empty
    list of items. *)
Definition with_empty_listing (w : world) : world :=
  {| time_time := time_time w;
     oauth_token := oauth_token w;
     api_entries := fun _ => Http2xx [];
     api_entry := api_entry w;
     api_create := api_create w;
     file_writable := file_writable w |}.

(** The listing requested from state [s] fails: no token can be had, or
    the request for the entries gets no 2xx answer. *)
Definition listing_fails (w : world) (since : option Z) (s : state) : Prop :=
  fst (ensure_token w s) = Returned false
  \/ exists s1,
       ensure_token w s = (Returned true, s1)
       /\ forall es,
            api_entries w (GET_entries (access_token s1) since :: requests s1)
            <> Http2xx es.

(** The counters before the first row. *)
Definition no_counts : counts :=
  {| imported_count := 0; error_count := 0; skipped_count := 0 |}.

(** The rows the loop of [import_from_csv] sees; [None] when [next]
    finds no header row to skip. *)
Definition data_rows (f : csv_text) : option (list (list pystr)) :=
  if has_header f then
    match reader f with [] => None | _ :: rest => Some rest end
  else Some (reader f).

(** The epoch time the re-filter computes for an entry, [None] when its
    date does not parse. *)
Definition created_timestamp {DT : DatetimeLib} (e : entry) : option Q :=
  option_map timestamp (parse_created_at (get_or (e_created_at e) [])).

(** ** Concrete inputs *)

(** A listed entry with the given id, title and creation date. *)
Definition listed (id : Z) (title created_at : string) : entry :=
  {| e_id := Some id;
     e_title := Some (lit title);
     e_url := Some (lit "https://example.org/article");
     e_content := None;
     e_created_at := Some (lit created_at) |}.

(** The same entry as the single-entry endpoint returns it. *)
Definition full (e : entry) : entry :=
  {| e_id := e_id e;
     e_title := e_title e;
     e_url := e_url e;
     e_content := Some (lit "<p>text</p>");
     e_created_at := e_created_at e |}.

Definition has_id (id : Z) (e : entry) : bool :=
  match e_id e with Some i => (i =? id)%Z | None => false end.

(** A server that accepts the credentials, lists [listing], serves every
    listed entry and creates every entry; a clock that starts at 1700000000 and
    advances by a second with each request; a writable output directory. *)
Definition serving (listing : list entry) : world :=
  {| time_time := fun sent => inject_Z (1700000000 + Z.of_nat (List.length sent));
     oauth_token := fun _ => Http2xx (lit "token");
     api_entries := fun _ => Http2xx listing;
     api_entry := fun sent =>
       match sent with
       | GET_entry _ (Some id) :: _ =>
           match find (has_id id) listing with
           | Some e => Http2xx (full e)
           | None => HttpError 404
           end
       | _ => HttpError 404
       end;
     api_create := fun _ => Http2xx (listed 1 "created" "2024-01-01T00:00:00+00:00");
     file_writable := fun _ => true |}.

(** A server whose listing endpoint answers 500. *)
Definition listing_down : world :=
  {| time_time := fun sent => inject_Z (1700000000 + Z.of_nat (List.length sent));
     oauth_token := fun _ => Http2xx (lit "token");
     api_entries := fun _ => HttpError 500;
     api_entry := fun _ => HttpError 500;
     api_create := fun _ => HttpError 500;
     file_writable := fun _ => true |}.

(** A server that answers every creation with 409 Conflict. *)
Definition all_conflicts : world :=
  {| time_time := fun sent => inject_Z (1700000000 + Z.of_nat (List.length sent));
     oauth_token := fun _ => Http2xx (lit "token");
     api_entries := fun _ => Http2xx [];
     api_entry := fun _ => HttpError 404;
     api_create := fun _ => HttpError 409;
     file_writable := fun _ => true |}.

(** A server that lists [listing] and answers 404 for every single
    entry. *)
Definition content_missing (listing : list entry) : world :=
  {| time_time := fun sent => inject_Z (1700000000 + Z.of_nat (List.length sent));
     oauth_token := fun _ => Http2xx (lit "token");
     api_entries := fun _ => Http2xx listing;
     api_entry := fun _ => HttpError 404;
     api_create := fun _ => HttpError 500;
     file_writable := fun _ => true |}.

(** The state of a new process; [last_check] is what [last_check.json]
    holds. *)
Definition started (last_check : option Q) : state :=
  {| access_token := None;
     last_check_file := last_check;
     output_files := [];
     log := [];
     requests := [] |}.

(** Three entries created one second before the epoch, at the epoch and
    one second after it. *)
Definition around_epoch : list entry :=
  [listed 1 "Before" "1969-12-31T23:59:59+00:00";
   listed 2 "At" "1970-01-01T00:00:00+00:00";
   listed 3 "After" "1970-01-01T00:00:01+00:00"].

(** A process that holds a token already. *)
Definition logged_in : state := with_token (Some (lit "token")) (started None).

(** A server that refuses the credentials. *)
Definition auth_down : world :=
  {| time_time := fun sent => inject_Z (1700000000 + Z.of_nat (List.length sent));
     oauth_token := fun _ => HttpError 401;
     api_entries := fun _ => Http2xx [];
     api_entry := fun _ => HttpError 404;
     api_create := fun _ => Http2xx (listed 1 "created" "2024-01-01T00:00:00+00:00");
     file_writable := fun _ => true |}.

(** A file of three rows: a valid one, one of a single column and one
    with a blank url.  Its first line holds neither [title] nor [url]. *)
Definition three_rows : csv_text :=
  {| readline := lit "Article,https://example.org/a" ++ [10%N];
     reader := [[lit "Article"; lit "https://example.org/a"];
                [lit "only"];
                [lit "Blank"; lit "  "]] |}.

(** A row of five columns with tags in the last one. *)
Definition tagged_row : list pystr :=
  [lit " Article "; lit "https://example.org/a"; lit "x"; lit "y";
   lit " news,tech "].

(** A name of 201 characters: 199 letters, a space and a letter. *)
Definition long_name : pystr := repeat 97%N 199 ++ lit " b".

(** ** Notions of the further properties *)

(** A character the sanitizer leaves alone. *)
Definition clean (c : codepoint) : Prop := is_problematic c = false.

(** The creation request the importer sends for [row] with [token]. *)
Definition creation_request (token : option pystr) (row : list pystr)
  : request :=
  POST_entries token (strip (nth 1 row []))
    (if truthy (strip (nth 0 row [])) then Some (strip (nth 0 row []))
     else None)
    (column_4_tags row).

Definition is_POST_token (r : request) : bool :=
  match r with POST_token => true | _ => false end.

Definition is_GET_entries (r : request) : bool :=
  match r with GET_entries _ _ => true | _ => false end.

Definition is_POST_entries (r : request) : bool :=
  match r with POST_entries _ _ _ _ => true | _ => false end.

(** From [s] to [s'] the token is the same and no token was requested. *)
Definition keeps_session (s s' : state) : Prop :=
  access_token s' = access_token s
  /\ exists sent, requests s' = sent ++ requests s
                  /\ forallb (fun r => negb (is_POST_token r)) sent = true.

(** The rows a counter record accounts for. *)
Definition counted (c : counts) : nat :=
  (imported_count c + error_count c + skipped_count c)%nat.

(** The state after the four closing log lines of [import_from_csv]. *)
Definition report (c : counts) (s : state) : state :=
  add_log INFO (Skipped (skipped_count c))
    (add_log INFO (Errors (error_count c))
       (add_log INFO (Imported (imported_count c))
          (add_log INFO Csv_import_completed s))).

(** From [s] to [s'] the stored watermark and the exported files are the
    same. *)
Definition same_files (s s' : state) : Prop :=
  last_check_file s' = last_check_file s
  /\ output_files s' = output_files s.

(** What the listing of a cycle started in [s] returns. *)
Definition listed_entries (w : world) (s : state) : list entry :=
  match fst (get_entries w (last_check_file s)
               (add_log INFO Checking_for_new_entries s)) with
  | Returned es => es
  | Raised _ => []
  end.

(** A server that grants a token and then answers nothing. *)
Definition token_only : world :=
  {| time_time := fun sent => inject_Z (1700000000 + Z.of_nat (List.length sent));
     oauth_token := fun _ => Http2xx (lit "token");
     api_entries := fun _ => NoResponse;
     api_entry := fun _ => NoResponse;
     api_create := fun _ => NoResponse;
     file_writable := fun _ => false |}.

(** A file without header whose first title holds the letters [url]. *)
Definition curl_first : csv_text :=
  {| readline := lit "Curl manual,https://curl.se/docs" ++ [10%N];
     reader := [[lit "Curl manual"; lit "https://curl.se/docs"];
                [lit "Article"; lit "https://example.org/a"]] |}.

(** A file with a header line and two rows under it. *)
Definition with_header : csv_text :=
  {| readline := lit "Title,URL" ++ [10%N];
     reader := [[lit "Title"; lit "URL"];
                [lit "Article"; lit "https://example.org/a"];
                [lit "only"]] |}.

(** * Properties *)

(** ** Stripping *)

Section Strip.

Lemma lstrip_head (s : pystr) (c : codepoint) (t : pystr) :
  lstrip s = c :: t -> is_space c = false.
Proof.
  induction s as [|a s IH]; simpl; [discriminate|].
  destruct (is_space a) eqn:Ea; [exact IH|].
  intros E; injection E as -> _; exact Ea.
Qed.

Lemma lstrip_nonspace (c : codepoint) (t : pystr) :
  is_space c = false -> lstrip (c :: t) = c :: t.
Proof. intros E; simpl; now rewrite E. Qed.

Lemma lstrip_app_nonspace (u : pystr) (c : codepoint) (v : pystr) :
  is_space c = false -> lstrip (u ++ c :: v) = lstrip u ++ c :: v.
Proof.
  intros E; induction u as [|a u IH]; simpl.
  - now rewrite E.
  - destruct (is_space a); [exact IH|reflexivity].
Qed.

Lemma rstrip_cons_nonspace (c : codepoint) (t : pystr) :
  is_space c = false -> rstrip (c :: t) = c :: rstrip t.
Proof.
  intros E; unfold rstrip; simpl.
  rewrite (lstrip_app_nonspace (rev t) c [] E), rev_app_distr.
  reflexivity.
Qed.

Lemma lstrip_idem (s : pystr) : lstrip (lstrip s) = lstrip s.
Proof.
  destruct (lstrip s) as [|c t] eqn:E; [reflexivity|].
  apply lstrip_nonspace, (lstrip_head s c t E).
Qed.

Lemma rstrip_idem (s : pystr) : rstrip (rstrip s) = rstrip s.
Proof. unfold rstrip; now rewrite rev_involutive, lstrip_idem. Qed.

(** A stripped string is empty or starts with a character that is not
    white space. *)
Lemma strip_head (s : pystr) (c : codepoint) (t : pystr) :
  strip s = c :: t -> is_space c = false.
Proof.
  unfold strip; destruct (lstrip s) as [|a l] eqn:E.
  - discriminate.
  - pose proof (lstrip_head s a l E) as Ea.
    rewrite (rstrip_cons_nonspace a l Ea).
    intros H; injection H as <- _; exact Ea.
Qed.

Lemma strip_nonspace_head (c : codepoint) (t : pystr) :
  is_space c = false -> strip (c :: t) = c :: rstrip t.
Proof.
  intros E; unfold strip.
  now rewrite (lstrip_nonspace c t E), (rstrip_cons_nonspace c t E).
Qed.

Lemma strip_idem (s : pystr) : strip (strip s) = strip s.
Proof.
  destruct (strip s) as [|c t] eqn:E; [reflexivity|].
  pose proof (strip_head s c t E) as Ec.
  rewrite (strip_nonspace_head c t Ec).
  assert (R : rstrip (strip s) = strip s) by (unfold strip; apply rstrip_idem).
  rewrite E, (rstrip_cons_nonspace c t Ec) in R.
  exact R.
Qed.

Lemma lstrip_length (s : pystr) : (List.length (lstrip s) <= List.length s)%nat.
Proof.
  induction s as [|a s IH]; simpl; [lia|].
  destruct (is_space a); simpl; lia.
Qed.

Lemma strip_length (s : pystr) : (List.length (strip s) <= List.length s)%nat.
Proof.
  unfold strip, rstrip.
  rewrite length_rev.
  etransitivity; [apply lstrip_length|].
  rewrite length_rev; apply lstrip_length.
Qed.

Variable P : codepoint -> Prop.

Lemma Forall_lstrip (s : pystr) : Forall P s -> Forall P (lstrip s).
Proof.
  induction 1 as [|a s Ha Hs IH]; simpl; [constructor|].
  destruct (is_space a); [exact IH|now constructor].
Qed.

Lemma Forall_strip (s : pystr) : Forall P s -> Forall P (strip s).
Proof.
  intros H; unfold strip, rstrip.
  apply Forall_rev, Forall_lstrip, Forall_rev, Forall_lstrip, H.
Qed.

Lemma Forall_cut (n : nat) (s : pystr) : Forall P s -> Forall P (firstn n s).
Proof.
  intros H; revert n; induction H as [|a s Ha Hs IH]; intros [|n]; simpl;
    constructor; [exact Ha|apply IH].
Qed.

End Strip.

(** ** The sanitizer *)

Lemma re_sub_clean (s : pystr) :
  Forall (fun c => is_problematic c = false) (re_sub_problematic s).
Proof.
  unfold re_sub_problematic; induction s as [|a s IH]; simpl;
    constructor; [|exact IH].
  destruct (is_problematic a) eqn:E; [reflexivity|exact E].
Qed.

Lemma re_sub_fixes_clean (s : pystr) :
  Forall (fun c => is_problematic c = false) s -> re_sub_problematic s = s.
Proof.
  unfold re_sub_problematic; induction 1 as [|a s Ha Hs IH]; simpl;
    [reflexivity|].
  now rewrite Ha, IH.
Qed.

Lemma sanitize_filename_cut (x : pystr) :
  sanitize_filename x =
  if truthy (cut_name x) then cut_name x else lit "untitled".
Proof. reflexivity. Qed.

Lemma cut_name_clean (x : pystr) :
  Forall (fun c => is_problematic c = false) (cut_name x).
Proof.
  unfold cut_name.
  pose proof (Forall_strip _ _ (re_sub_clean x)) as H.
  destruct (200 <? _)%nat; [apply Forall_cut|]; exact H.
Qed.

Lemma cut_name_length (x : pystr) : (List.length (cut_name x) <= 200)%nat.
Proof.
  unfold cut_name.
  destruct (200 <? _)%nat eqn:E.
  - rewrite length_firstn; lia.
  - apply Nat.ltb_ge in E; exact E.
Qed.

Lemma cut_name_head (x : pystr) (c : codepoint) (t : pystr) :
  cut_name x = c :: t -> is_space c = false.
Proof.
  unfold cut_name.
  destruct (strip (re_sub_problematic x)) as [|a l] eqn:E.
  - simpl; discriminate.
  - pose proof (strip_head _ a l E) as Ea.
    destruct (200 <? _)%nat; simpl; intros H; injection H as <- _; exact Ea.
Qed.

(** Sanitizing a sanitized name strips it once more and does nothing else. *)
Lemma sanitize_filename_twice (x : pystr) :
  sanitize_filename (sanitize_filename x) = strip (sanitize_filename x).
Proof.
  rewrite (sanitize_filename_cut x).
  destruct (cut_name x) as [|c t] eqn:E; simpl truthy; cbv iota.
  - vm_compute; reflexivity.
  - pose proof (cut_name_head x c t E) as Ec.
    pose proof (cut_name_clean x) as Hc.
    pose proof (cut_name_length x) as Hl.
    rewrite E in Hc, Hl.
    unfold sanitize_filename.
    rewrite (re_sub_fixes_clean _ Hc).
    pose proof (strip_length (c :: t)) as Hs.
    replace (200 <? List.length (strip (c :: t)))%nat with false
      by (symmetry; apply Nat.ltb_ge; lia).
    rewrite (strip_nonspace_head c t Ec); reflexivity.
Qed.

Lemma sanitize_filename_nonempty (x : pystr) : sanitize_filename x <> [].
Proof.
  rewrite sanitize_filename_cut.
  destruct (cut_name x); simpl; discriminate.
Qed.

Lemma rstrip_no_trailing_space (s : pystr) :
  ends_with_space s = false -> rstrip s = s.
Proof.
  unfold ends_with_space, rstrip.
  destruct (rev s) as [|c t] eqn:E; intros H.
  - simpl; rewrite <- (rev_involutive s), E; reflexivity.
  - rewrite (lstrip_nonspace c t H), <- E; apply rev_involutive.
Qed.

Lemma sanitize_filename_strip (x : pystr) :
  strip (sanitize_filename x) = rstrip (sanitize_filename x).
Proof.
  rewrite sanitize_filename_cut.
  destruct (cut_name x) as [|c t] eqn:E; simpl truthy; cbv iota.
  - vm_compute; reflexivity.
  - unfold strip; now rewrite (lstrip_nonspace c t (cut_name_head x c t E)).
Qed.

Lemma sanitize_filename_untruncated (x : pystr) :
  (List.length (strip (re_sub_problematic x)) <= 200)%nat ->
  ends_with_space (sanitize_filename x) = false.
Proof.
  intros H.
  rewrite sanitize_filename_cut; unfold cut_name.
  replace (200 <? _)%nat with false by (symmetry; apply Nat.ltb_ge; exact H).
  destruct (strip (re_sub_problematic x)) as [|c t] eqn:E; simpl truthy;
    cbv iota; [vm_compute; reflexivity|].
  rewrite <- E; clear E H c t.
  unfold ends_with_space, strip, rstrip.
  rewrite rev_involutive.
  destruct (lstrip (rev (lstrip _))) as [|c t] eqn:E; [reflexivity|].
  exact (lstrip_head _ c t E).
Qed.

(** C5, as the code has it: the sanitized name is never empty, and
    sanitizing it again changes nothing provided it does not end in white
    space, which holds in particular when the stripped name has at most
    200 characters so that nothing was cut. *)
Theorem sanitize_filename_idempotent_unless_cut_at_space (x : pystr) :
  sanitize_filename x <> []
  /\ (ends_with_space (sanitize_filename x) = false ->
      sanitize_filename (sanitize_filename x) = sanitize_filename x)
  /\ ((List.length (strip (re_sub_problematic x)) <= 200)%nat ->
      sanitize_filename (sanitize_filename x) = sanitize_filename x).
Proof.
  assert (I : ends_with_space (sanitize_filename x) = false ->
              sanitize_filename (sanitize_filename x) = sanitize_filename x).
  { intros H.
    rewrite sanitize_filename_twice, sanitize_filename_strip.
    apply rstrip_no_trailing_space, H. }
  split; [apply sanitize_filename_nonempty|].
  split; [exact I|].
  intros H; apply I, sanitize_filename_untruncated, H.
Qed.

Lemma sanitize_filename_idempotent_witness :
  sanitize_filename (lit " a<b>: c ") = lit "a_b__ c"
  /\ sanitize_filename (sanitize_filename (lit " a<b>: c "))
     = sanitize_filename (lit " a<b>: c ")
  /\ sanitize_filename (sanitize_filename (lit "  "))
     = sanitize_filename (lit "  ").
Proof.
  split; [reflexivity|].
  split.
  - destruct (sanitize_filename_idempotent_unless_cut_at_space
                (lit " a<b>: c ")) as (_ & I & _).
    apply I; reflexivity.
  - destruct (sanitize_filename_idempotent_unless_cut_at_space (lit "  "))
      as (_ & _ & J).
    apply J; simpl; lia.
Defined.

(** C5 fails as stated: a name of 201 characters with a space in the
    200th place is cut to 200 characters ending in that space, and the
    second pass strips the space. *)
Lemma sanitize_filename_not_idempotent :
  List.length (sanitize_filename long_name) = 200%nat
  /\ List.length (sanitize_filename (sanitize_filename long_name)) = 199%nat
  /\ sanitize_filename (sanitize_filename long_name)
     <> sanitize_filename long_name.
Proof.
  split; [vm_compute; reflexivity|].
  split; [vm_compute; reflexivity|].
  intros H; apply (f_equal (@List.length _)) in H.
  vm_compute in H; discriminate.
Qed.

(** ** The check cycle *)

Section Cycle.

Context {DT : DatetimeLib}.
Variable w : world.

Ltac step :=
  unfold check_for_new_entries, get_entries, get_entry_content,
    add_entry_to_wallabag, ensure_token, get_access_token,
    get_last_check_time, save_last_check_time, set_access_token,
    logging, send, read, bind, ret, raise; simpl.

(** The listing never raises, and touches neither the watermark nor the
    exported files. *)
Lemma get_entries_returns (since : option Q) (s : state) :
  exists es s', get_entries w since s = (Returned es, s')
    /\ last_check_file s' = last_check_file s
    /\ output_files s' = output_files s.
Proof.
  step.
  destruct (truthy_opt (access_token s)); simpl.
  - destruct (api_entries w _); simpl; eauto.
  - destruct (oauth_token w _); simpl; eauto.
    destruct (api_entries w _); simpl; eauto.
Qed.

Lemma export_loop_raises (e : entry) (l : list entry) (n : nat) (s : state) :
  export_loop (e :: l) n s = (Raised (AttributeError (lit "export_entry")), s).
Proof. reflexivity. Qed.

(** The three ways a cycle ends, given what the listing returned. *)
Lemma check_for_new_entries_cases (s : state) (es : list entry) (s' : state) :
  get_entries w (last_check_file s) (add_log INFO Checking_for_new_entries s)
    = (Returned es, s') ->
  let current_time := time_time w (requests s) in
  check_for_new_entries w s =
  match es with
  | [] =>
      (Returned tt,
       with_last_check (Some current_time)
         (add_log INFO No_new_entries_found s'))
  | _ :: _ =>
      match new_entries (last_check_file s) es with
      | [] =>
          (Returned tt,
           with_last_check (Some current_time)
             (add_log INFO (Successfully_exported 0)
                (add_log INFO (Found_new_entries 0) s')))
      | e :: l =>
          (Raised (AttributeError (lit "export_entry")),
           add_log INFO (Found_new_entries (S (List.length l))) s')
      end
  end.
Proof.
  intros E current_time.
  unfold check_for_new_entries, get_last_check_time, read, bind at 1 2 3 4.
  unfold logging at 1.
  rewrite E.
  destruct es as [|e0 es0]; [reflexivity|].
  destruct (new_entries (last_check_file s) (e0 :: es0)) as [|e l]; reflexivity.
Qed.

(** A cycle that returns has stored the time read before the listing
    was requested; a cycle that raises has left the stored time alone. *)
Lemma check_for_new_entries_watermark (s : state) :
  match check_for_new_entries w s with
  | (Returned _, s') =>
      last_check_file s' = Some (time_time w (requests s))
  | (Raised _, s') => last_check_file s' = last_check_file s
  end.
Proof.
  destruct (get_entries_returns (last_check_file s)
              (add_log INFO Checking_for_new_entries s))
    as (es & s' & E & Hl & _).
  rewrite (check_for_new_entries_cases s es s' E).
  destruct es as [|e0 es0]; [reflexivity|].
  destruct (new_entries _ _); [reflexivity|exact Hl].
Qed.

(** The statements after [return True] never raise: a failed fetch or
    write is logged and answered with [False]. *)
Lemma unreachable_export_statements_returns (e : entry) (s : state) :
  exists b s', unreachable_export_statements w e s = (Returned b, s')
    /\ (b = false -> exists m rest, log s' = (ERROR, m) :: rest).
Proof.
  unfold unreachable_export_statements, write_file; step.
  destruct (truthy_opt (access_token s)); simpl;
    [|destruct (oauth_token w _); simpl];
    try (destruct (api_entry w _); simpl);
    try (destruct (file_writable w _); simpl);
    do 2 eexists; (split; [reflexivity|]);
    first [discriminate | intros _; do 2 eexists; reflexivity].
Qed.

(** Run on an entry whose date does not parse, with the content fetched
    and the file written, those statements name the file after
    [unknown-date] and write the rendered entry. *)
Lemma unreachable_export_statements_unknown_date
  (e full_entry : entry) (s : state) :
  created_timestamp e = None ->
  truthy_opt (access_token s) = true ->
  api_entry w (GET_entry (access_token s) (e_id e) :: requests s)
    = Http2xx full_entry ->
  let filename :=
    lit "unknown-date_"
    ++ sanitize_filename (get_or (e_title e) (lit "Untitled"))
    ++ lit ".html" in
  file_writable w filename = true ->
  exists s', unreachable_export_statements w e s = (Returned true, s')
    /\ output_files s'
       = (filename, create_html_export full_entry) :: output_files s.
Proof.
  intros P T A filename W; unfold created_timestamp in P.
  destruct (parse_created_at _) eqn:EP; [discriminate|].
  unfold unreachable_export_statements, write_file; step.
  rewrite T; simpl; rewrite A; simpl; rewrite EP.
  change (file_writable w _) with (file_writable w filename).
  rewrite W; simpl.
  eexists; split; reflexivity.
Qed.

End Cycle.


(** ** Claims on the export of listed entries *)

(** C1, at a failing input: on a first run whose listing holds one entry,
    the cycle starts at 1700000000, raises [AttributeError] at the call of
    [self.export_entry] and ends without having stored any watermark. *)
Theorem check_for_new_entries_raises_before_saving :
  let w := serving [listed 1 "Title" "2024-01-01T00:00:00+00:00"] in
  let r := check_for_new_entries (DT:=Iso.lib) w (started None) in
  time_time w (requests (started None)) = inject_Z 1700000000
  /\ fst r = Raised (AttributeError (lit "export_entry"))
  /\ last_check_file (snd r) = None.
Proof. vm_compute; repeat split; reflexivity. Qed.

(** C2, at a failing input: with two entries listed and a server that
    has the content of neither, the cycle raises [AttributeError] at the
    first entry; no entry is fetched, no failure is logged, the second
    entry is not reached and the cycle does not complete. *)
Theorem check_for_new_entries_aborts_at_first_entry :
  let w := content_missing [listed 1 "First" "2024-01-01T00:00:00+00:00";
                            listed 2 "Second" "2024-01-02T00:00:00+00:00"] in
  let r := check_for_new_entries (DT:=Iso.lib) w (started None) in
  fst r = Raised (AttributeError (lit "export_entry"))
  /\ requests (snd r) = [GET_entries (Some (lit "token")) None; POST_token]
  /\ log (snd r) = [(INFO, Found_new_entries 2); (INFO, Retrieved_entries 2);
                    (INFO, Token_obtained); (INFO, Checking_for_new_entries)].
Proof. vm_compute; repeat split; reflexivity. Qed.

(** C3, at a failing input: an entry whose date does not parse is listed,
    its content is there and the directory is writable, yet the cycle
    raises [AttributeError] and writes no file; the statements that would
    have written [unknown-date_Title.html] are the unreachable ones. *)
Theorem check_for_new_entries_writes_no_unknown_date_file :
  let e := listed 1 "Title" "not a date" in
  let w := serving [e] in
  let r := check_for_new_entries (DT:=Iso.lib) w (started None) in
  created_timestamp (DT:=Iso.lib) e = None
  /\ fst r = Raised (AttributeError (lit "export_entry"))
  /\ output_files (snd r) = []
  /\ (let r' := unreachable_export_statements (DT:=Iso.lib) w e (snd r) in
      fst r' = Returned true
      /\ map fst (output_files (snd r')) = [lit "unknown-date_Title.html"]).
Proof. vm_compute; repeat split; reflexivity. Qed.

(** ** The CSV importer *)

Section CsvImport.

Context {DT : DatetimeLib}.
Variable w : world.

Ltac step :=
  unfold add_entry_to_wallabag, ensure_token, get_access_token,
    set_access_token, logging, send, read, bind, ret, raise; simpl.

(** [add_entry_to_wallabag] never raises. *)
Lemma add_entry_to_wallabag_returns (url : pystr) (title tags : option pystr)
  (s : state) :
  exists r s', add_entry_to_wallabag w url title tags s = (Returned r, s').
Proof.
  step.
  destruct (truthy_opt (access_token s)); simpl;
    [|destruct (oauth_token w _); simpl; eauto];
    (destruct (api_create w _) as [e|st|]; simpl; eauto;
     destruct (st =? 409)%nat; simpl; eauto).
Qed.

Lemma structurally_valid_false (row : list pystr) :
  structurally_valid row = false <->
  (List.length row < 2)%nat
  \/ ((2 <= List.length row)%nat /\ strip (nth 1 row []) = []).
Proof.
  unfold structurally_valid.
  destruct (2 <=? List.length row)%nat eqn:E; simpl.
  - apply Nat.leb_le in E.
    destruct (strip (nth 1 row [])); simpl; split; intros H; auto;
      try discriminate; destruct H as [H|[_ H]]; try lia; discriminate.
  - apply Nat.leb_gt in E; tauto.
Qed.

Lemma import_row_short (dry_run : bool) (n : nat) (row : list pystr)
  (c : counts) (s : state) :
  (List.length row < 2)%nat ->
  import_row w dry_run n row c s
  = (Returned (skipped_incr c), add_log WARNING (Row_not_enough_columns n) s).
Proof.
  intros H; unfold import_row.
  replace (List.length row <? 2)%nat with true
    by (symmetry; apply Nat.ltb_lt; exact H).
  reflexivity.
Qed.

Lemma import_row_blank_url (dry_run : bool) (n : nat) (row : list pystr)
  (c : counts) (s : state) :
  (2 <= List.length row)%nat -> strip (nth 1 row []) = [] ->
  import_row w dry_run n row c s
  = (Returned (skipped_incr c), add_log WARNING (Row_empty_url n) s).
Proof.
  intros H E; unfold import_row.
  replace (List.length row <? 2)%nat with false
    by (symmetry; apply Nat.ltb_ge; exact H).
  rewrite E; reflexivity.
Qed.

Lemma import_row_valid (dry_run : bool) (n : nat) (row : list pystr)
  (c : counts) (s : state) :
  structurally_valid row = true ->
  import_row w dry_run n row c s
  = let title := strip (nth 0 row []) in
    let url := strip (nth 1 row []) in
    let s1 := add_log INFO (Processing title url) s in
    if dry_run then (Returned (imported_incr c), s1)
    else
      match add_entry_to_wallabag w url (Some title) (row_tags row) s1 with
      | (Returned r, s2) =>
          (Returned (if truthy_add r then imported_incr c else error_incr c),
           s2)
      | (Raised e, s2) => (Raised e, s2)
      end.
Proof.
  unfold structurally_valid; intros H.
  apply andb_prop in H as [H1 H2]; apply Nat.leb_le in H1.
  unfold import_row.
  replace (List.length row <? 2)%nat with false
    by (symmetry; apply Nat.ltb_ge; exact H1).
  rewrite H2; cbn [negb].
  destruct dry_run; cbn [negb]; [reflexivity|].
  unfold bind at 1; unfold logging at 1.
  unfold bind at 1.
  destruct (add_entry_to_wallabag w _ _ _ _) as [[r|e] s2]; reflexivity.
Qed.

Lemma count_cons (row : list pystr) (rows : list (list pystr)) :
  count_valid (row :: rows)
  = ((if structurally_valid row then 1 else 0) + count_valid rows)%nat
  /\ count_skipped (row :: rows)
     = ((if structurally_valid row then 0 else 1) + count_skipped rows)%nat.
Proof.
  unfold count_valid, count_skipped; simpl.
  destruct (structurally_valid row); simpl; split; reflexivity.
Qed.

(** The loop never raises; it counts every row it skips, every other row
    as imported or as an error, and as imported when its creation call
    succeeds.  A dry run sends nothing. *)
Lemma import_rows_counts (dry_run : bool) (rows : list (list pystr)) :
  forall (n : nat) (c : counts) (s : state),
  exists c' s',
    import_rows w dry_run n rows c s = (Returned c', s')
    /\ skipped_count c' = (skipped_count c + count_skipped rows)%nat
    /\ (imported_count c' + error_count c'
        = imported_count c + error_count c + count_valid rows)%nat
    /\ (dry_run = true ->
        error_count c' = error_count c
        /\ requests s' = requests s /\ access_token s' = access_token s)
    /\ ((forall row, In row rows -> structurally_valid row = true ->
         add_succeeds w row) ->
        error_count c' = error_count c).
Proof.
  induction rows as [|row rest IH]; intros n c s.
  - exists c, s; simpl; repeat split; auto; lia.
  - destruct (count_cons row rest) as [CV CS].
    simpl import_rows; unfold bind at 1.
    destruct (structurally_valid row) eqn:V.
    + rewrite (import_row_valid dry_run n row c s V); cbv zeta.
      destruct dry_run.
      * destruct (IH (S n) (imported_incr c)
                    (add_log INFO (Processing (strip (nth 0 row []))
                                     (strip (nth 1 row []))) s))
          as (c' & s' & E & Hs & Hv & Hd & Ha).
        exists c', s'; rewrite E, CV, CS; simpl in *.
        destruct (Hd eq_refl) as (He & Hr & Ht).
        repeat split; auto; try lia.
      * destruct (add_entry_to_wallabag_returns
                    (strip (nth 1 row [])) (Some (strip (nth 0 row [])))
                    (row_tags row)
                    (add_log INFO (Processing (strip (nth 0 row []))
                                     (strip (nth 1 row []))) s))
          as (r & s2 & Er).
        rewrite Er.
        destruct (IH (S n)
                    (if truthy_add r then imported_incr c else error_incr c) s2)
          as (c' & s' & E & Hs & Hv & Hd & Ha).
        exists c', s'; rewrite E, CV, CS.
        split; [reflexivity|].
        split; [destruct (truthy_add r); simpl in *; lia|].
        split; [destruct (truthy_add r); simpl in *; lia|].
        split; [discriminate|].
        intros H.
        destruct (H row (or_introl eq_refl) V
                    (add_log INFO (Processing (strip (nth 0 row []))
                                     (strip (nth 1 row []))) s))
          as (r' & s2' & Er' & Tr).
        rewrite Er in Er'; injection Er' as <- _.
        rewrite Tr in Ha; simpl in Ha.
        apply Ha; intros row' I; apply H; right; exact I.
    + assert (exists m, import_row w dry_run n row c s
                        = (Returned (skipped_incr c), add_log WARNING m s))
        as (m & Em).
      { apply structurally_valid_false in V as [V|[V1 V2]].
        - eexists; apply import_row_short, V.
        - eexists; apply import_row_blank_url; assumption. }
      rewrite Em.
      destruct (IH (S n) (skipped_incr c) (add_log WARNING m s))
        as (c' & s' & E & Hs & Hv & Hd & Ha).
      exists c', s'; rewrite E, CV, CS; simpl in *.
      split; [reflexivity|].
      split; [lia|].
      split; [lia|].
      split; [exact Hd|].
      intros H; apply Ha; intros row' I; apply H; right; exact I.
Qed.

Lemma skip_header_data_rows (f : csv_text) (s : state) :
  skip_header f s
  = match data_rows f with
    | Some rows => (Returned rows, s)
    | None => (Raised StopIteration, s)
    end.
Proof.
  unfold skip_header, data_rows.
  destruct (has_header f); [destruct (reader f)|]; reflexivity.
Qed.

(** What [import_from_csv] returns and logs, from what its loop returns. *)
Lemma import_from_csv_report (f : csv_text) (dry_run : bool) (s : state) :
  import_from_csv w (Some f) dry_run s
  = match data_rows f with
    | Some rows =>
        match import_rows w dry_run 1 rows no_counts (import_started dry_run s)
        with
        | (Returned c, s') =>
            (Returned true,
             add_log INFO (Skipped (skipped_count c))
               (add_log INFO (Errors (error_count c))
                  (add_log INFO (Imported (imported_count c))
                     (add_log INFO Csv_import_completed s'))))
        | (Raised e, s') =>
            (Returned false, add_log ERROR (Csv_read_error e) s')
        end
    | None =>
        (Returned false,
         add_log ERROR (Csv_read_error StopIteration)
           (import_started dry_run s))
    end.
Proof.
  unfold import_from_csv, import_started, try_except.
  unfold bind at 1 2 3; unfold logging at 1.
  replace ((if dry_run then logging INFO Dry_run_mode else ret tt)
             (add_log INFO Csv_import_starting s))
    with (Returned tt,
          if dry_run
          then add_log INFO Dry_run_mode (add_log INFO Csv_import_starting s)
          else add_log INFO Csv_import_starting s)
    by (destruct dry_run; reflexivity).
  unfold bind at 1; rewrite skip_header_data_rows.
  destruct (data_rows f) as [rows|]; [|reflexivity].
  fold no_counts; unfold bind at 1.
  destruct (import_rows w dry_run 1 rows no_counts _) as [[c|e] s'];
    reflexivity.
Qed.

Lemma row_tags_column_4 (row : list pystr) : row_tags row = column_4_tags row.
Proof.
  unfold row_tags, column_4_tags.
  destruct row as [|c0 [|c1 [|c2 [|c3 [|c4 rest]]]]]; reflexivity.
Qed.

Lemma column_4_tags_truthy (row : list pystr) :
  (if truthy_opt (column_4_tags row) then column_4_tags row else None)
  = column_4_tags row.
Proof.
  unfold column_4_tags.
  destruct (nth_error row 4) as [cell|]; [|reflexivity].
  destruct (truthy (strip cell)) eqn:E; simpl; [rewrite E|]; reflexivity.
Qed.

(** The creation request the importer sends for a valid row. *)
Lemma import_row_request (n : nat) (row : list pystr) (c : counts) (s : state) :
  structurally_valid row = true ->
  truthy_opt (access_token s) = true ->
  requests (snd (import_row w false n row c s))
  = POST_entries (access_token s) (strip (nth 1 row []))
      (if truthy (strip (nth 0 row [])) then Some (strip (nth 0 row []))
       else None)
      (column_4_tags row)
    :: requests s.
Proof.
  intros V T.
  rewrite (import_row_valid false n row c s V); cbv zeta.
  rewrite row_tags_column_4.
  step; rewrite T; simpl.
  rewrite column_4_tags_truthy.
  destruct (api_create w _) as [e|st|]; simpl; try reflexivity.
  destruct (st =? 409)%nat; reflexivity.
Qed.

Lemma count_permutation (rows rows' : list (list pystr)) :
  Permutation rows rows' ->
  count_valid rows = count_valid rows'
  /\ count_skipped rows = count_skipped rows'.
Proof.
  induction 1 as [|r l l' _ [IH1 IH2]|a b l|l l' l'' _ [IH1 IH2] _ [IH3 IH4]].
  - split; reflexivity.
  - destruct (count_cons r l) as [-> ->], (count_cons r l') as [-> ->].
    rewrite IH1, IH2; split; reflexivity.
  - destruct (count_cons a (b :: l)) as [-> ->], (count_cons b l) as [-> ->],
      (count_cons b (a :: l)) as [-> ->], (count_cons a l) as [-> ->].
    split; lia.
  - split; congruence.
Qed.

End CsvImport.

(** ** Claims on the importer *)

(** C6: a row of fewer than two columns is skipped and counted as
    skipped; so is a row whose url is blank; the tags sent for a row are
    those of column 4, when it is there and not blank; and a file whose
    three data rows are a valid row, a one-column row and a row with a
    blank url, in any order, reports two rows skipped and one row
    imported or in error, imported when its creation call succeeds. *)
Theorem import_from_csv_skips_and_counts (w : world) :
  (forall dry_run n row c s,
      (List.length row < 2)%nat ->
      import_row w dry_run n row c s
      = (Returned (skipped_incr c),
         add_log WARNING (Row_not_enough_columns n) s))
  /\ (forall dry_run n row c s,
         (2 <= List.length row)%nat -> strip (nth 1 row []) = [] ->
         import_row w dry_run n row c s
         = (Returned (skipped_incr c), add_log WARNING (Row_empty_url n) s))
  /\ (forall n row c s,
         structurally_valid row = true ->
         truthy_opt (access_token s) = true ->
         requests (snd (import_row w false n row c s))
         = POST_entries (access_token s) (strip (nth 1 row []))
             (if truthy (strip (nth 0 row [])) then Some (strip (nth 0 row []))
              else None)
             (column_4_tags row)
           :: requests s)
  /\ (forall f rows valid short blank dry_run s,
         data_rows f = Some rows ->
         Permutation [valid; short; blank] rows ->
         structurally_valid valid = true ->
         (List.length short < 2)%nat ->
         (2 <= List.length blank)%nat -> strip (nth 1 blank []) = [] ->
         exists c s',
           import_from_csv w (Some f) dry_run s
           = (Returned true,
              add_log INFO (Skipped 2)
                (add_log INFO (Errors (error_count c))
                   (add_log INFO (Imported (imported_count c))
                      (add_log INFO Csv_import_completed s'))))
           /\ (imported_count c + error_count c = 1)%nat
           /\ (dry_run = false -> add_succeeds w valid ->
               imported_count c = 1%nat /\ error_count c = 0%nat)).
Proof.
  split; [intros; now apply import_row_short|].
  split; [intros; now apply import_row_blank_url|].
  split; [intros; now apply import_row_request|].
  intros f rows valid short blank dry_run s D P V Hshort Hblank1 Hblank2.
  assert (Vs : structurally_valid short = false)
    by (apply structurally_valid_false; left; exact Hshort).
  assert (Vb : structurally_valid blank = false)
    by (apply structurally_valid_false; right; split; assumption).
  destruct (count_permutation _ _ P) as [CV CS].
  unfold count_valid, count_skipped in CV, CS; simpl in CV, CS.
  rewrite V, Vs, Vb in CV, CS; simpl in CV, CS.
  rewrite import_from_csv_report, D.
  destruct (import_rows_counts w dry_run rows 1 no_counts
              (import_started dry_run s))
    as (c & s' & E & Hs & Hv & _ & Ha).
  rewrite E; unfold count_valid, count_skipped in Hs, Hv.
  rewrite <- CS in Hs; rewrite <- CV in Hv; simpl in Hs, Hv.
  exists c, s'; rewrite Hs.
  split; [reflexivity|].
  split; [exact Hv|].
  intros _ A.
  assert (He : error_count c = 0%nat).
  { apply Ha; intros row I Vr.
    apply (Permutation_in _ (Permutation_sym P)) in I.
    destruct I as [<-|[<-|[<-|[]]]]; [exact A|congruence|congruence]. }
  lia.
Qed.

Lemma import_from_csv_skips_and_counts_witness :
  import_row (serving []) true 2 [lit "only"] no_counts (started None)
  = (Returned (skipped_incr no_counts),
     add_log WARNING (Row_not_enough_columns 2) (started None))
  /\ import_row (serving []) true 3 [lit "Blank"; lit "  "] no_counts
       (started None)
     = (Returned (skipped_incr no_counts),
        add_log WARNING (Row_empty_url 3) (started None))
  /\ requests (snd (import_row (serving []) false 1 tagged_row no_counts
                      logged_in))
     = [POST_entries (Some (lit "token")) (lit "https://example.org/a")
          (Some (lit "Article")) (Some (lit "news,tech"))]
  /\ exists s',
       import_from_csv (serving []) (Some three_rows) false (started None)
       = (Returned true,
          add_log INFO (Skipped 2)
            (add_log INFO (Errors 0)
               (add_log INFO (Imported 1)
                  (add_log INFO Csv_import_completed s')))).
Proof.
  destruct (import_from_csv_skips_and_counts (serving []))
    as (H1 & H2 & H3 & H).
  split; [apply H1; simpl; lia|].
  split; [apply H2; [simpl; lia|reflexivity]|].
  split; [exact (H3 1%nat tagged_row no_counts logged_in eq_refl eq_refl)|].
  destruct (H three_rows (reader three_rows)
              [lit "Article"; lit "https://example.org/a"]
              [lit "only"] [lit "Blank"; lit "  "] false (started None))
    as (c & s' & E & _ & K).
  - reflexivity.
  - apply Permutation_refl.
  - reflexivity.
  - simpl; lia.
  - simpl; lia.
  - reflexivity.
  - destruct K as [Ki Ke]; [reflexivity| |].
    + intros s; unfold add_entry_to_wallabag, ensure_token, get_access_token,
        set_access_token, logging, send, read, bind, ret; simpl.
      destruct (truthy_opt (access_token s)); simpl; eauto.
    + exists s'; rewrite E, Ki, Ke; reflexivity.
Defined.

(** C7: once a token is there, [add_entry_to_wallabag] returns the
    created resource on a 2xx answer, [True] on a 409 answer and [False]
    on any other failure, as it does when no token can be had; and for a
    valid row outside a dry run the importer counts the created resource
    and [True] as imported and [False] as an error. *)
Theorem add_entry_to_wallabag_three_outcomes (w : world)
  (url : pystr) (title tags : option pystr) (s : state) :
  (forall s1,
      ensure_token w s = (Returned true, s1) ->
      let sent :=
        POST_entries (access_token s1) url
          (if truthy_opt title then title else None)
          (if truthy_opt tags then tags else None)
        :: requests s1 in
      let result := fst (add_entry_to_wallabag w url title tags s) in
      (forall entry, api_create w sent = Http2xx entry ->
                     result = Returned (Entry_created entry))
      /\ (api_create w sent = HttpError 409 ->
          result = Returned Already_exists)
      /\ (forall status, api_create w sent = HttpError status ->
                         status <> 409%nat -> result = Returned Add_failed)
      /\ (api_create w sent = NoResponse -> result = Returned Add_failed))
  /\ (forall s1,
         ensure_token w s = (Returned false, s1) ->
         fst (add_entry_to_wallabag w url title tags s) = Returned Add_failed)
  /\ (forall n row c r s',
         structurally_valid row = true ->
         add_entry_to_wallabag w (strip (nth 1 row []))
           (Some (strip (nth 0 row []))) (row_tags row)
           (add_log INFO (Processing (strip (nth 0 row []))
                            (strip (nth 1 row []))) s)
         = (Returned r, s') ->
         import_row w false n row c s
         = (Returned match r with
                     | Entry_created _ => imported_incr c
                     | Already_exists => imported_incr c
                     | Add_failed => error_incr c
                     end, s')).
Proof.
  split; [|split].
  - intros s1 E sent result; subst result sent.
    (split; [|split; [|split]]); intros;
      unfold add_entry_to_wallabag, bind at 1; rewrite E;
      cbv beta iota zeta delta [read send bind negb];
      match goal with
      | H : api_create w _ = _ |- _ => rewrite H
      end;
      try reflexivity.
    match goal with
    | N : _ <> 409%nat |- _ => apply Nat.eqb_neq in N; rewrite N
    end.
    reflexivity.
  - intros s1 E.
    unfold add_entry_to_wallabag, bind at 1; rewrite E; reflexivity.
  - intros n row c r s' V E.
    rewrite (import_row_valid w false n row c s V); cbv zeta.
    rewrite E; destruct r; reflexivity.
Qed.

Lemma add_entry_to_wallabag_three_outcomes_witness :
  let url := lit "https://example.org/a" in
  let title := Some (lit "Article") in
  fst (add_entry_to_wallabag (serving []) url title None (started None))
  = Returned (Entry_created (listed 1 "created" "2024-01-01T00:00:00+00:00"))
  /\ fst (add_entry_to_wallabag all_conflicts url title None (started None))
     = Returned Already_exists
  /\ fst (add_entry_to_wallabag listing_down url title None (started None))
     = Returned Add_failed
  /\ fst (add_entry_to_wallabag auth_down url title None (started None))
     = Returned Add_failed
  /\ fst (import_row all_conflicts false 1
            [lit "Article"; lit "https://example.org/a"] no_counts
            (started None))
     = Returned (imported_incr no_counts)
  /\ fst (import_row listing_down false 1
            [lit "Article"; lit "https://example.org/a"] no_counts
            (started None))
     = Returned (error_incr no_counts).
Proof.
  intros url title.
  split; [|split; [|split; [|split; [|split]]]].
  - destruct (add_entry_to_wallabag_three_outcomes (serving []) url title None
                (started None)) as (H & _ & _).
    destruct (H _ eq_refl) as (C & _).
    apply C; reflexivity.
  - destruct (add_entry_to_wallabag_three_outcomes all_conflicts url title None
                (started None)) as (H & _ & _).
    destruct (H _ eq_refl) as (_ & C & _).
    apply C; reflexivity.
  - destruct (add_entry_to_wallabag_three_outcomes listing_down url title None
                (started None)) as (H & _ & _).
    destruct (H _ eq_refl) as (_ & _ & C & _).
    apply (C 500%nat); [reflexivity|discriminate].
  - destruct (add_entry_to_wallabag_three_outcomes auth_down url title None
                (started None)) as (_ & H & _).
    apply (H _ eq_refl).
  - destruct (add_entry_to_wallabag_three_outcomes all_conflicts url title None
                (started None)) as (_ & _ & H).
    rewrite (H 1%nat [lit "Article"; lit "https://example.org/a"] no_counts
               Already_exists _ eq_refl eq_refl).
    reflexivity.
  - destruct (add_entry_to_wallabag_three_outcomes listing_down url title None
                (started None)) as (_ & _ & H).
    rewrite (H 1%nat [lit "Article"; lit "https://example.org/a"] no_counts
               Add_failed _ eq_refl eq_refl).
    reflexivity.
Defined.

(** C8: a dry run sends no request at all and leaves the token as it
    was, whatever the file; and when the file can be read it returns
    [True] and reports as imported the number of rows that have two
    columns at least and a url that is not blank, with no error. *)
Theorem import_from_csv_dry_run (w : world) (csv_file : option csv_text)
  (s : state) :
  let r := import_from_csv w csv_file true s in
  requests (snd r) = requests s
  /\ access_token (snd r) = access_token s
  /\ (forall f rows,
         csv_file = Some f -> data_rows f = Some rows ->
         exists rest,
           fst r = Returned true
           /\ log (snd r)
              = (INFO, Skipped (count_skipped rows))
                :: (INFO, Errors 0)
                :: (INFO, Imported (count_valid rows))
                :: (INFO, Csv_import_completed) :: rest).
Proof.
  destruct csv_file as [f|]; cbv zeta.
  - rewrite import_from_csv_report.
    destruct (data_rows f) as [rows|] eqn:D.
    + destruct (import_rows_counts w true rows 1 no_counts
                  (import_started true s))
        as (c & s' & E & Hs & Hv & Hd & _).
      destruct (Hd eq_refl) as (He & Hr & Ht).
      rewrite E; simpl in *.
      split; [exact Hr|].
      split; [exact Ht|].
      intros f' rows' [= <-] D'.
      rewrite D in D'; injection D' as <-.
      exists (log s'); split; [reflexivity|].
      rewrite Hs, He; replace (imported_count c) with (count_valid rows) by lia.
      reflexivity.
    + simpl; split; [reflexivity|].
      split; [reflexivity|].
      intros f' rows' [= <-] D'; rewrite D in D'; discriminate.
  - simpl; repeat split; intros; discriminate.
Qed.

Lemma import_from_csv_dry_run_witness :
  let r := import_from_csv (serving []) (Some three_rows) true (started None) in
  requests (snd r) = []
  /\ exists rest,
       fst r = Returned true
       /\ log (snd r)
          = (INFO, Skipped 2) :: (INFO, Errors 0) :: (INFO, Imported 1)
            :: (INFO, Csv_import_completed) :: rest.
Proof.
  destruct (import_from_csv_dry_run (serving []) (Some three_rows)
              (started None)) as (R & _ & H).
  split; [exact R|].
  exact (H three_rows (reader three_rows) eq_refl eq_refl).
Defined.

(** ** The re-filter *)

Section Refilter.

Context {DT : DatetimeLib}.

Lemma float_gt_lt (a b : Q) : float_gt a b = true <-> (b < a)%Q.
Proof.
  unfold float_gt; rewrite negb_true_iff.
  split; intros H.
  - apply Qnot_le_lt; intros L.
    apply Qle_bool_iff in L; congruence.
  - destruct (Qle_bool a b) eqn:E; [|reflexivity].
    apply Qle_bool_iff in E; lra.
Qed.

Lemma created_after_timestamp (T : Q) (e : entry) :
  created_after T e
  = match created_timestamp e with
    | Some t => float_gt t T
    | None => true
    end.
Proof.
  unfold created_after, created_timestamp.
  destruct (parse_created_at _); reflexivity.
Qed.

Lemma created_after_spec (T : Q) (e : entry) :
  created_after T e = true <->
  created_timestamp e = None
  \/ exists t, created_timestamp e = Some t /\ (T < t)%Q.
Proof.
  rewrite created_after_timestamp.
  destruct (created_timestamp e) as [t|].
  - rewrite float_gt_lt; split.
    + intros H; right; exists t; auto.
    + intros [H|(t' & [= <-] & H)]; [discriminate|exact H].
  - split; auto.
Qed.

(** An entry created at or before the watermark is not kept. *)
Lemma created_after_not_later (T t : Q) (e : entry) :
  created_timestamp e = Some t -> (t <= T)%Q -> created_after T e = false.
Proof.
  intros E L; rewrite created_after_timestamp, E.
  destruct (float_gt t T) eqn:G; [|reflexivity].
  apply float_gt_lt in G; lra.
Qed.

Lemma truthy_float_positive (T : Q) : (0 < T)%Q -> truthy_float T = true.
Proof.
  intros H; unfold truthy_float.
  destruct (Qeq_bool T 0) eqn:E; [|reflexivity].
  apply Qeq_bool_iff in E; lra.
Qed.

End Refilter.

(** C4, as the code has it: with a watermark [T] that is not zero, the
    re-filter keeps exactly the listed entries whose date does not parse
    or parses to a time strictly after [T]; of three entries created at
    [T - 1], [T] and [T + 1] it keeps the last one only. *)
Theorem new_entries_strictly_after_watermark {DT : DatetimeLib}
  (T : Q) (entries : list entry) :
  truthy_float T = true ->
  (forall e,
      In e (new_entries (Some T) entries) <->
      In e entries
      /\ (created_timestamp e = None
          \/ exists t, created_timestamp e = Some t /\ (T < t)%Q))
  /\ (forall a b c ta tb tc,
         created_timestamp a = Some ta -> (ta == T - 1)%Q ->
         created_timestamp b = Some tb -> (tb == T)%Q ->
         created_timestamp c = Some tc -> (tc == T + 1)%Q ->
         new_entries (Some T) [a; b; c] = [c]).
Proof.
  intros H; unfold new_entries; rewrite H; split.
  - intros e; rewrite filter_In, created_after_spec; reflexivity.
  - intros a b c ta tb tc Ea Ha Eb Hb Ec Hc; simpl.
    rewrite (created_after_not_later T ta a Ea) by lra.
    rewrite (created_after_not_later T tb b Eb) by lra.
    replace (created_after T c) with true; [reflexivity|].
    symmetry; apply created_after_spec; right; exists tc; split; [exact Ec|lra].
Qed.

Lemma new_entries_strictly_after_watermark_witness :
  let before := listed 1 "Before" "2023-11-14T22:13:19+00:00" in
  let at_T := listed 2 "At" "2023-11-14T22:13:20+00:00" in
  let after := listed 3 "After" "2023-11-14T22:13:21+00:00" in
  let unparsed := listed 4 "Unparsed" "yesterday" in
  let T := inject_Z 1700000000 in
  new_entries (DT:=Iso.lib) (Some T) [before; at_T; after] = [after]
  /\ In unparsed (new_entries (DT:=Iso.lib) (Some T) [at_T; unparsed]).
Proof.
  intros before at_T after unparsed T.
  split.
  - destruct (new_entries_strictly_after_watermark (DT:=Iso.lib) T
                [before; at_T; after] eq_refl) as [_ H].
    apply (H _ _ _ (inject_Z 1699999999) (inject_Z 1700000000)
             (inject_Z 1700000001));
      reflexivity.
  - destruct (new_entries_strictly_after_watermark (DT:=Iso.lib) T
                [at_T; unparsed] eq_refl) as [H _].
    apply H; split; [right; left; reflexivity|left; reflexivity].
Defined.

(** C4 fails as stated when the watermark is present and zero: the three
    entries created at -1, 0 and 1 are all kept, and the one created at
    the watermark is kept although it is not later than it. *)
Lemma new_entries_zero_watermark_keeps_all :
  map (created_timestamp (DT:=Iso.lib)) around_epoch
  = [Some (inject_Z (-1)); Some (inject_Z 0); Some (inject_Z 1)]
  /\ new_entries (DT:=Iso.lib) (Some (inject_Z 0)) around_epoch = around_epoch
  /\ ~ (inject_Z 0 < inject_Z 0)%Q.
Proof.
  split; [vm_compute; reflexivity|].
  split; [vm_compute; reflexivity|].
  apply Qlt_irrefl.
Qed.

(** ** Claims on the watermark *)

(** C9: when the listing fails, for want of a token or by any error of
    the request, [get_entries] returns the empty list; the cycle then
    reports no new entries and stores the time it started at, and ends
    as it would on a server with an empty listing, the log apart; on any
    later run, whose watermark is that time or a later one, an entry
    created up to that time is not among the entries to export. *)
Theorem failed_listing_is_taken_for_empty {DT : DatetimeLib}
  (w : world) (s : state) :
  let T := time_time w (requests s) in
  let s0 := add_log INFO Checking_for_new_entries s in
  listing_fails w (since_param (last_check_file s)) s0 ->
  fst (get_entries w (last_check_file s) s0) = Returned []
  /\ (let r := check_for_new_entries w s in
      let r0 := check_for_new_entries (with_empty_listing w) s in
      fst r = Returned tt
      /\ (exists rest, log (snd r) = (INFO, No_new_entries_found) :: rest)
      /\ last_check_file (snd r) = Some T
      /\ output_files (snd r) = output_files s
      /\ fst r0 = fst r
      /\ last_check_file (snd r0) = last_check_file (snd r)
      /\ output_files (snd r0) = output_files (snd r)
      /\ requests (snd r0) = requests (snd r)
      /\ access_token (snd r0) = access_token (snd r))
  /\ (forall T' entries e t,
         (0 < T)%Q -> (T <= T')%Q ->
         created_timestamp e = Some t -> (t <= T)%Q ->
         ~ In e (new_entries (Some T') entries)).
Proof.
  intros T s0 F; subst T s0.
  assert (L : forall T' entries e t,
             (0 < time_time w (requests s))%Q ->
             (time_time w (requests s) <= T')%Q ->
             created_timestamp e = Some t ->
             (t <= time_time w (requests s))%Q ->
             ~ In e (new_entries (Some T') entries)).
  { intros T' entries e t P LT E Le I.
    unfold new_entries in I.
    rewrite truthy_float_positive in I by lra.
    apply filter_In in I as [_ I].
    rewrite (created_after_not_later T' t e E) in I by lra.
    discriminate. }
  unfold listing_fails in F.
  unfold check_for_new_entries, get_entries, ensure_token, get_access_token,
    get_last_check_time, save_last_check_time, set_access_token,
    logging, send, read, bind, ret in *; simpl in *.
  destruct (truthy_opt (access_token s)); simpl in *.
  - destruct F as [F|(s1 & [= <-] & F)]; [discriminate|]; simpl in F.
    destruct (api_entries w _) as [es| |]; simpl;
      [exfalso; apply (F es); reflexivity| |];
      (split; [reflexivity|]); (split; [|exact L]);
      repeat (split; try reflexivity); eexists; reflexivity.
  - destruct (oauth_token w _) as [t| |]; simpl in *.
    + destruct F as [F|(s1 & [= <-] & F)]; [discriminate|]; simpl in F.
      destruct (api_entries w _) as [es| |]; simpl;
        [exfalso; apply (F es); reflexivity| |];
        (split; [reflexivity|]); (split; [|exact L]);
        repeat (split; try reflexivity); eexists; reflexivity.
    + (split; [reflexivity|]); (split; [|exact L]);
        repeat (split; try reflexivity); eexists; reflexivity.
    + (split; [reflexivity|]); (split; [|exact L]);
        repeat (split; try reflexivity); eexists; reflexivity.
Qed.

Lemma failed_listing_is_taken_for_empty_witness :
  let missed := listed 7 "During" "2023-11-14T22:13:19+00:00" in
  let r := check_for_new_entries (DT:=Iso.lib) listing_down
             (started (Some (inject_Z 1600000000))) in
  fst r = Returned tt
  /\ last_check_file (snd r) = Some (inject_Z 1700000000)
  /\ ~ In missed
         (new_entries (DT:=Iso.lib) (Some (inject_Z 1700000300)) [missed]).
Proof.
  intros missed r.
  destruct (failed_listing_is_taken_for_empty (DT:=Iso.lib) listing_down
              (started (Some (inject_Z 1600000000))))
    as (_ & (R & _ & W & _) & L).
  - right; eexists; split; [reflexivity|].
    intros es; discriminate.
  - split; [exact R|].
    split; [exact W|].
    apply (L (inject_Z 1700000300) [missed] missed (inject_Z 1699999999)).
    + reflexivity.
    + discriminate.
    + reflexivity.
    + discriminate.
Defined.

(** C10: a stored watermark that is falsy, zero that is, is treated as no
    watermark: the listing is requested without [since], every listed
    entry is taken as new, and the cycle sends the same requests, logs the
    same lines, writes the same files and ends the same way as with no
    watermark stored. *)
Theorem falsy_watermark_is_no_watermark {DT : DatetimeLib}
  (w : world) (s : state) (q : Q) :
  truthy_float q = false ->
  since_param (Some q) = None
  /\ (forall entries, new_entries (Some q) entries = entries)
  /\ (let a := check_for_new_entries w (with_last_check (Some q) s) in
      let b := check_for_new_entries w (with_last_check None s) in
      fst a = fst b
      /\ requests (snd a) = requests (snd b)
      /\ log (snd a) = log (snd b)
      /\ output_files (snd a) = output_files (snd b)
      /\ access_token (snd a) = access_token (snd b)
      /\ (fst a = Returned tt ->
          last_check_file (snd a) = last_check_file (snd b))).
Proof.
  intros H.
  assert (S : since_param (Some q) = None)
    by (unfold since_param; rewrite H; reflexivity).
  assert (N : forall entries, new_entries (Some q) entries = entries)
    by (intros entries; unfold new_entries; rewrite H; reflexivity).
  split; [exact S|].
  split; [exact N|].
  unfold check_for_new_entries, get_entries, ensure_token, get_access_token,
    get_last_check_time, save_last_check_time, set_access_token,
    logging, send, read, bind, ret.
  unfold since_param; simpl; rewrite ?H; simpl.
  destruct (truthy_opt (access_token s)); simpl;
    [|destruct (oauth_token w _); simpl];
    try (destruct (api_entries w _) as [[|e es]| |]; simpl);
    try (rewrite H; simpl);
    repeat (split; try reflexivity); discriminate.
Qed.

Lemma falsy_watermark_is_no_watermark_witness :
  since_param (Some (inject_Z 0)) = None
  /\ new_entries (DT:=Iso.lib) (Some (inject_Z 0)) around_epoch = around_epoch
  /\ fst (check_for_new_entries (DT:=Iso.lib) (serving [])
            (with_last_check (Some (inject_Z 0)) (started None)))
     = fst (check_for_new_entries (DT:=Iso.lib) (serving [])
              (with_last_check None (started None))).
Proof.
  destruct (falsy_watermark_is_no_watermark (DT:=Iso.lib) (serving [])
              (started None) (inject_Z 0) eq_refl)
    as (S & N & E & _).
  split; [exact S|].
  split; [apply N|exact E].
Defined.

(** * Further properties *)

(** ** The sanitizer, continued *)

Lemma is_space_clean (c : codepoint) : is_space c = true -> clean c.
Proof.
  unfold clean, is_problematic; intros H.
  destruct (existsb (N.eqb c) _) eqn:E; [|reflexivity].
  apply existsb_exists in E as (x & I & Ex).
  apply N.eqb_eq in Ex; subst x.
  simpl in I; repeat (destruct I as [<-|I]; [discriminate H|]).
  destruct I.
Qed.

Lemma lstrip_blank (x : pystr) : forallb is_space x = true -> lstrip x = [].
Proof.
  induction x as [|c x IH]; simpl; [reflexivity|].
  intros H; apply andb_prop in H as [-> H]; exact (IH H).
Qed.

Lemma sanitize_filename_shape (x : pystr) :
  Forall clean (sanitize_filename x)
  /\ (1 <= List.length (sanitize_filename x) <= 200)%nat
  /\ (forall c t, sanitize_filename x = c :: t -> is_space c = false).
Proof.
  rewrite sanitize_filename_cut.
  destruct (cut_name x) as [|c t] eqn:E; simpl truthy; cbv iota.
  - split; [|split].
    + repeat constructor.
    + change (List.length (lit "untitled")) with 8%nat; lia.
    + intros c t [= <- _]; reflexivity.
  - split; [|split].
    + rewrite <- E; apply cut_name_clean.
    + pose proof (cut_name_length x) as L; rewrite E in L; simpl in *; lia.
    + intros c' t' [= <- _]; exact (cut_name_head x c t E).
Qed.

(** X1: whatever the input, the sanitized name has between 1 and 200
    characters, none of them one of the nine replaced characters, and it
    does not begin with white space. *)
Theorem sanitize_filename_safe (x : pystr) :
  Forall clean (sanitize_filename x)
  /\ (1 <= List.length (sanitize_filename x) <= 200)%nat
  /\ (forall c t, sanitize_filename x = c :: t -> is_space c = false).
Proof. exact (sanitize_filename_shape x). Qed.

(** X2: the names the sanitizer returns unchanged are exactly the names
    that are not empty, have at most 200 characters, hold none of the
    replaced characters and have no white space at either end. *)
Theorem sanitize_filename_fixed_points (x : pystr) :
  sanitize_filename x = x <->
  x <> [] /\ (List.length x <= 200)%nat /\ Forall clean x /\ strip x = x.
Proof.
  split.
  - intros H.
    destruct (sanitize_filename_shape x) as (C & L & _).
    rewrite H in C, L.
    split; [destruct x; [simpl in L; lia|discriminate]|].
    split; [lia|].
    split; [exact C|].
    pose proof (sanitize_filename_twice x) as T.
    rewrite !H in T; symmetry; exact T.
  - intros (N & L & C & S).
    unfold sanitize_filename.
    rewrite (re_sub_fixes_clean x C), S.
    replace (200 <? List.length x)%nat with false
      by (symmetry; apply Nat.ltb_ge; exact L).
    destruct x; [contradiction|reflexivity].
Qed.

Lemma sanitize_filename_fixed_points_witness :
  sanitize_filename (lit "My notes (draft)") = lit "My notes (draft)"
  /\ strip (lit " padded") <> lit " padded".
Proof.
  split.
  - apply sanitize_filename_fixed_points.
    split; [discriminate|].
    split; [simpl; lia|].
    split; [repeat constructor|reflexivity].
  - intros S.
    assert (H : sanitize_filename (lit " padded") <> lit " padded")
      by (vm_compute; discriminate).
    apply H, sanitize_filename_fixed_points.
    split; [discriminate|].
    split; [simpl; lia|].
    split; [repeat constructor|exact S].
Defined.

(** X3: a name that is empty or made of white space only is replaced by
    [untitled]. *)
Theorem sanitize_filename_blank (x : pystr) :
  forallb is_space x = true -> sanitize_filename x = lit "untitled".
Proof.
  intros H.
  assert (C : Forall clean x).
  { apply Forall_forall; intros c I; apply is_space_clean.
    exact (proj1 (forallb_forall is_space x) H c I). }
  unfold sanitize_filename.
  rewrite (re_sub_fixes_clean x C).
  unfold strip; rewrite (lstrip_blank x H); reflexivity.
Qed.

Lemma sanitize_filename_blank_witness :
  sanitize_filename [] = lit "untitled"
  /\ sanitize_filename [32%N; 9%N; 160%N; 12288%N] = lit "untitled".
Proof.
  split; apply sanitize_filename_blank; reflexivity.
Defined.

Lemma sanitize_filename_safe_witness :
  is_space 95%N = false
  /\ (1 <= List.length (sanitize_filename long_name) <= 200)%nat.
Proof.
  destruct (sanitize_filename_safe (lit "  <b> ")) as (_ & _ & H).
  split; [exact (H 95%N (lit "b_") eq_refl)|].
  exact (proj1 (proj2 (sanitize_filename_safe long_name))).
Defined.

(** ** The session *)

Section Session.

Context {DT : DatetimeLib}.
Variable w : world.

Ltac step :=
  unfold check_for_new_entries, get_entries, get_entry_content,
    add_entry_to_wallabag, ensure_token, get_access_token,
    get_last_check_time, save_last_check_time, set_access_token,
    logging, send, read, bind, ret, raise; simpl.

Lemma keeps_session_refl (s : state) : keeps_session s s.
Proof. split; [reflexivity|exists []; split; reflexivity]. Qed.

Lemma keeps_session_trans (s1 s2 s3 : state) :
  keeps_session s1 s2 -> keeps_session s2 s3 -> keeps_session s1 s3.
Proof.
  intros (T1 & l1 & R1 & F1) (T2 & l2 & R2 & F2).
  split; [congruence|].
  exists (l2 ++ l1); split.
  - rewrite R2, R1, app_assoc; reflexivity.
  - rewrite forallb_app, F1, F2; reflexivity.
Qed.

Lemma keeps_session_log (l : level) (m : message) (s : state) :
  keeps_session s (add_log l m s).
Proof. split; [reflexivity|exists []; split; reflexivity]. Qed.

Lemma keeps_session_request (r : request) (s : state) :
  is_POST_token r = false -> keeps_session s (add_request r s).
Proof.
  intros H; split; [reflexivity|].
  exists [r]; split; [reflexivity|simpl; rewrite H; reflexivity].
Qed.

Lemma keeps_session_sent (r : request) (l : level) (m : message)
  (s : state) :
  is_POST_token r = false -> keeps_session s (add_log l m (add_request r s)).
Proof.
  intros H; split; [reflexivity|].
  exists [r]; split; [reflexivity|simpl; rewrite H; reflexivity].
Qed.

Lemma get_entries_keeps_session (since : option Q) (s : state) :
  truthy_opt (access_token s) = true ->
  keeps_session s (snd (get_entries w since s)).
Proof.
  intros T; step; rewrite T; simpl.
  destruct (api_entries w _); simpl; apply keeps_session_sent; reflexivity.
Qed.

Lemma get_entry_content_keeps_session (id : option Z) (s : state) :
  truthy_opt (access_token s) = true ->
  keeps_session s (snd (get_entry_content w id s)).
Proof.
  intros T; step; rewrite T; simpl.
  destruct (api_entry w _); simpl;
    [apply keeps_session_request|apply keeps_session_sent
    |apply keeps_session_sent]; reflexivity.
Qed.

Lemma add_entry_to_wallabag_keeps_session (url : pystr)
  (title tags : option pystr) (s : state) :
  truthy_opt (access_token s) = true ->
  keeps_session s (snd (add_entry_to_wallabag w url title tags s)).
Proof.
  intros T; step; rewrite T; simpl.
  destruct (api_create w _) as [e|st|]; simpl;
    try destruct (st =? 409)%nat; simpl;
    apply keeps_session_sent; reflexivity.
Qed.

Lemma import_row_keeps_session (dry_run : bool) (n : nat) (row : list pystr)
  (c : counts) (s : state) :
  truthy_opt (access_token s) = true ->
  keeps_session s (snd (import_row w dry_run n row c s)).
Proof.
  intros T.
  destruct (structurally_valid row) eqn:V.
  - rewrite (import_row_valid w dry_run n row c s V); cbv zeta.
    destruct dry_run; [apply keeps_session_log|].
    pose proof (add_entry_to_wallabag_keeps_session
                  (strip (nth 1 row [])) (Some (strip (nth 0 row [])))
                  (row_tags row)
                  (add_log INFO (Processing (strip (nth 0 row []))
                                   (strip (nth 1 row []))) s) T) as K.
    destruct (add_entry_to_wallabag w _ _ _ _) as [[r|e] s2]; exact K.
  - apply structurally_valid_false in V as [V|[V1 V2]].
    + rewrite (import_row_short w dry_run n row c s V).
      apply keeps_session_log.
    + rewrite (import_row_blank_url w dry_run n row c s V1 V2).
      apply keeps_session_log.
Qed.

Lemma import_rows_keeps_session (dry_run : bool) (rows : list (list pystr)) :
  forall (n : nat) (c : counts) (s : state),
  truthy_opt (access_token s) = true ->
  keeps_session s (snd (import_rows w dry_run n rows c s)).
Proof.
  induction rows as [|row rest IH]; intros n c s T.
  - apply keeps_session_refl.
  - simpl import_rows; unfold bind at 1.
    pose proof (import_row_keeps_session dry_run n row c s T) as K.
    destruct (import_row w dry_run n row c s) as [[c'|e] s1]; [|exact K].
    simpl in K.
    apply (keeps_session_trans s s1); [exact K|].
    apply IH; destruct K as [-> _]; exact T.
Qed.

Lemma import_from_csv_keeps_session (csv_file : option csv_text)
  (dry_run : bool) (s : state) :
  truthy_opt (access_token s) = true ->
  keeps_session s (snd (import_from_csv w csv_file dry_run s)).
Proof.
  intros T.
  destruct csv_file as [f|]; [|apply keeps_session_log].
  rewrite import_from_csv_report.
  assert (K0 : keeps_session s (import_started dry_run s))
    by (unfold import_started; destruct dry_run;
        (split; [reflexivity|exists []; split; reflexivity])).
  destruct (data_rows f) as [rows|]; [|exact K0].
  pose proof (import_rows_keeps_session dry_run rows 1 no_counts
                (import_started dry_run s)) as K.
  destruct (import_rows w dry_run 1 rows no_counts _) as [[c|e] s'];
    simpl in *; apply (keeps_session_trans s (import_started dry_run s));
    try exact K0; apply K; destruct K0 as [-> _]; exact T.
Qed.

Lemma check_for_new_entries_keeps_session (s : state) :
  truthy_opt (access_token s) = true ->
  keeps_session s (snd (check_for_new_entries w s)).
Proof.
  intros T.
  pose proof (get_entries_keeps_session (last_check_file s)
                (add_log INFO Checking_for_new_entries s) T) as K.
  destruct (get_entries_returns w (last_check_file s)
              (add_log INFO Checking_for_new_entries s))
    as (es & s' & E & _).
  rewrite E in K; simpl in K.
  rewrite (check_for_new_entries_cases w s es s' E).
  destruct es as [|e0 es0]; [exact K|].
  destruct (new_entries _ _); exact K.
Qed.

Lemma run_once_keeps_session (s : state) :
  truthy_opt (access_token s) = true ->
  keeps_session s (snd (run_once w s)).
Proof.
  intros T.
  pose proof (check_for_new_entries_keeps_session
                (add_log INFO Output_directory (add_log INFO Starting_check s))
                T) as K.
  unfold run_once, try_except, bind at 1 2 3; unfold logging at 1 2.
  destruct (check_for_new_entries w _) as [[u|e] s']; exact K.
Qed.

End Session.

(** X4: once the object holds a token that is not empty, no operation
    requests a token again or changes the one held, whatever the server
    answers: a token that has gone stale is never renewed. *)
Theorem token_is_never_renewed {DT : DatetimeLib} (w : world) (s : state) :
  truthy_opt (access_token s) = true ->
  (forall since, keeps_session s (snd (get_entries w since s)))
  /\ (forall id, keeps_session s (snd (get_entry_content w id s)))
  /\ (forall url title tags,
         keeps_session s (snd (add_entry_to_wallabag w url title tags s)))
  /\ (forall csv_file dry_run,
         keeps_session s (snd (import_from_csv w csv_file dry_run s)))
  /\ keeps_session s (snd (check_for_new_entries w s))
  /\ keeps_session s (snd (run_once w s)).
Proof.
  intros T.
  split; [intros; now apply get_entries_keeps_session|].
  split; [intros; now apply get_entry_content_keeps_session|].
  split; [intros; now apply add_entry_to_wallabag_keeps_session|].
  split; [intros; now apply import_from_csv_keeps_session|].
  split; [now apply check_for_new_entries_keeps_session
         |now apply run_once_keeps_session].
Qed.

Lemma token_is_never_renewed_witness :
  access_token
    (snd (import_from_csv listing_down (Some three_rows) false logged_in))
  = Some (lit "token")
  /\ keeps_session logged_in
       (snd (run_once (DT:=Iso.lib) listing_down logged_in)).
Proof.
  destruct (token_is_never_renewed (DT:=Iso.lib) listing_down logged_in
              eq_refl) as (_ & _ & _ & I & _ & R).
  split; [exact (proj1 (I (Some three_rows) false))|exact R].
Defined.

(** X5: with no token held and a server that grants none, each API
    operation sends the token request and nothing else, logs the failure
    and returns its own failure value: the empty list, [None] or [False]. *)
Theorem no_token_no_request (w : world) (s : state) :
  truthy_opt (access_token s) = false ->
  (forall t, oauth_token w (POST_token :: requests s) <> Http2xx t) ->
  let s' :=
    add_log ERROR
      (Token_failed (failure_of (oauth_token w (POST_token :: requests s))))
      (add_request POST_token s) in
  (forall since, get_entries w since s = (Returned [], s'))
  /\ (forall id, get_entry_content w id s = (Returned None, s'))
  /\ (forall url title tags,
         add_entry_to_wallabag w url title tags s = (Returned Add_failed, s')).
Proof.
  intros T F s'; subst s'.
  unfold get_entries, get_entry_content, add_entry_to_wallabag, ensure_token,
    get_access_token, read, send, bind; simpl.
  rewrite T; simpl.
  destruct (oauth_token w _) as [t| |]; [destruct (F t eq_refl)| |];
    repeat split.
Qed.

Lemma no_token_no_request_witness :
  get_entries auth_down None (started None)
  = (Returned [],
     add_log ERROR (Token_failed (Some 401%nat))
       (add_request POST_token (started None))).
Proof.
  destruct (no_token_no_request auth_down (started None) eq_refl) as (H & _).
  - intros t; discriminate.
  - apply H.
Defined.

(** X6: with no token held and a server that grants one, the listing
    first requests the token and then the entries with that token, and
    the object holds the token afterwards. *)
Theorem get_entries_authenticates_first (w : world) (s : state)
  (since : option Q) (token : pystr) :
  truthy_opt (access_token s) = false ->
  oauth_token w (POST_token :: requests s) = Http2xx token ->
  let s' := snd (get_entries w since s) in
  requests s'
  = GET_entries (Some token) (since_param since) :: POST_token :: requests s
  /\ access_token s' = Some token.
Proof.
  intros T G; unfold get_entries, ensure_token, get_access_token,
    set_access_token, logging, read, send, bind, ret; simpl.
  rewrite T; simpl; rewrite G; simpl.
  destruct (api_entries w _); simpl; split; reflexivity.
Qed.

Lemma get_entries_authenticates_first_witness :
  requests (snd (get_entries token_only (Some (inject_Z 1700000000))
                   (started None)))
  = [GET_entries (Some (lit "token")) (Some 1700000000%Z); POST_token].
Proof.
  exact (proj1 (get_entries_authenticates_first token_only (started None)
                  (Some (inject_Z 1700000000)) (lit "token")
                  eq_refl eq_refl)).
Defined.

(** X7: for a watermark after the epoch, the [since] value sent to the
    server is a whole number of seconds that is not above the watermark
    and is less than one second below it. *)
Theorem since_param_bounds (t : Q) :
  (0 < t)%Q ->
  exists z, since_param (Some t) = Some z
            /\ (inject_Z z <= t)%Q /\ (t < inject_Z z + 1)%Q.
Proof.
  intros P; unfold since_param.
  rewrite (truthy_float_positive t P).
  exists (int_of_float t); split; [reflexivity|].
  assert (E : int_of_float t = Qfloor t).
  { unfold int_of_float, Qfloor; destruct t as [n d]; simpl.
    apply Z.quot_div_nonneg; [|reflexivity].
    unfold Qlt in P; simpl in P; lia. }
  rewrite E; split; [apply Qfloor_le|].
  pose proof (Qlt_floor t) as L.
  rewrite inject_Z_plus in L; exact L.
Qed.

Lemma since_param_bounds_witness :
  exists z, since_param (Some (17 # 10)) = Some z
            /\ (inject_Z z <= 17 # 10)%Q /\ (17 # 10 < inject_Z z + 1)%Q.
Proof. apply since_param_bounds; reflexivity. Defined.

(** ** The rendered document *)

Lemma starts_with_app (p b : pystr) : starts_with p (p ++ b) = true.
Proof.
  induction p as [|c p IH]; simpl; [reflexivity|].
  rewrite N.eqb_refl; exact IH.
Qed.

Lemma contains_here (p b : pystr) : contains p (p ++ b) = true.
Proof.
  destruct (p ++ b) eqn:E; simpl; rewrite <- E, starts_with_app; reflexivity.
Qed.

Lemma contains_right (p a b : pystr) :
  contains p b = true -> contains p (a ++ b) = true.
Proof.
  intros H; induction a as [|c a IH]; [exact H|].
  simpl; rewrite IH; apply orb_true_r.
Qed.

Lemma contains_app (p a b : pystr) : contains p (a ++ p ++ b) = true.
Proof. apply contains_right, contains_here. Qed.

(** X8: the rendered document holds, character for character and with
    nothing escaped, the title of the entry ([Untitled] when it has none),
    its url, its content, and its creation date: formatted when the date
    parses, as the entry gives it when it does not. *)
Theorem create_html_export_embeds {DT : DatetimeLib} (e : entry) :
  let html := create_html_export e in
  contains (get_or (e_title e) (lit "Untitled")) html = true
  /\ contains (get_or (e_url e) []) html = true
  /\ contains (get_or (e_content e) []) html = true
  /\ match parse_created_at (get_or (e_created_at e) []) with
     | Some created_dt =>
         contains (strftime created_dt (lit "%Y-%m-%d %H:%M:%S")) html = true
     | None => contains (get_or (e_created_at e) []) html = true
     end.
Proof.
  unfold create_html_export; cbv zeta.
  destruct (parse_created_at (get_or (e_created_at e) []));
    repeat split;
    repeat first [apply contains_here | apply contains_right].
Qed.

(** ** The importer, continued *)

Section CsvImportMore.

Variable w : world.

Lemma count_total (rows : list (list pystr)) :
  (count_valid rows + count_skipped rows = List.length rows)%nat.
Proof.
  induction rows as [|row rest IH]; [reflexivity|].
  destruct (count_cons row rest) as [-> ->].
  destruct (structurally_valid row); simpl; lia.
Qed.

Lemma data_rows_length (f : csv_text) (rows : list (list pystr)) :
  data_rows f = Some rows ->
  List.length rows
  = (List.length (reader f) - (if has_header f then 1 else 0))%nat.
Proof.
  unfold data_rows; destruct (has_header f).
  - destruct (reader f); [discriminate|].
    intros [= <-]; simpl; lia.
  - intros [= <-]; lia.
Qed.

Lemma data_rows_some (f : csv_text) :
  (has_header f = true -> reader f <> []) ->
  exists rows, data_rows f = Some rows.
Proof.
  unfold data_rows; intros H.
  destruct (has_header f); [|eauto].
  destruct (reader f); [destruct (H eq_refl eq_refl)|eauto].
Qed.

(** What [import_from_csv] returns for a file that can be read. *)
Lemma import_from_csv_readable (f : csv_text) (dry_run : bool) (s : state)
  (rows : list (list pystr)) :
  data_rows f = Some rows ->
  exists c s',
    import_rows w dry_run 1 rows no_counts (import_started dry_run s)
    = (Returned c, s')
    /\ import_from_csv w (Some f) dry_run s = (Returned true, report c s').
Proof.
  intros D.
  destruct (import_rows_counts w dry_run rows 1 no_counts
              (import_started dry_run s)) as (c & s' & E & _).
  exists c, s'; split; [exact E|].
  rewrite import_from_csv_report, D, E; reflexivity.
Qed.

Lemma add_entry_to_wallabag_same_files (url : pystr)
  (title tags : option pystr) (s : state) :
  same_files s (snd (add_entry_to_wallabag w url title tags s)).
Proof.
  unfold add_entry_to_wallabag, ensure_token, get_access_token,
    set_access_token, logging, send, read, bind, ret; simpl.
  destruct (truthy_opt (access_token s)); simpl;
    [|destruct (oauth_token w _); simpl];
    try (destruct (api_create w _) as [e|st|]; simpl;
         try destruct (st =? 409)%nat; simpl);
    split; reflexivity.
Qed.

Lemma import_row_same_files (dry_run : bool) (n : nat) (row : list pystr)
  (c : counts) (s : state) :
  same_files s (snd (import_row w dry_run n row c s)).
Proof.
  destruct (structurally_valid row) eqn:V.
  - rewrite (import_row_valid w dry_run n row c s V); cbv zeta.
    destruct dry_run; [split; reflexivity|].
    pose proof (add_entry_to_wallabag_same_files
                  (strip (nth 1 row [])) (Some (strip (nth 0 row [])))
                  (row_tags row)
                  (add_log INFO (Processing (strip (nth 0 row []))
                                   (strip (nth 1 row []))) s)) as K.
    destruct (add_entry_to_wallabag w _ _ _ _) as [[r|e] s2]; exact K.
  - apply structurally_valid_false in V as [V|[V1 V2]].
    + rewrite (import_row_short w dry_run n row c s V); split; reflexivity.
    + rewrite (import_row_blank_url w dry_run n row c s V1 V2);
        split; reflexivity.
Qed.

Lemma import_rows_same_files (dry_run : bool) (rows : list (list pystr)) :
  forall (n : nat) (c : counts) (s : state),
  same_files s (snd (import_rows w dry_run n rows c s)).
Proof.
  induction rows as [|row rest IH]; intros n c s; [split; reflexivity|].
  simpl import_rows; unfold bind at 1.
  pose proof (import_row_same_files dry_run n row c s) as K.
  destruct (import_row w dry_run n row c s) as [[c'|e] s1]; [|exact K].
  destruct K as [K1 K2], (IH (S n) c' s1) as [I1 I2].
  split; simpl in *; congruence.
Qed.

(** The requests a live import sends when a token is held. *)
Lemma import_rows_requests (rows : list (list pystr)) :
  forall (n : nat) (c : counts) (s : state),
  truthy_opt (access_token s) = true ->
  requests (snd (import_rows w false n rows c s))
  = rev (map (creation_request (access_token s))
           (filter structurally_valid rows))
    ++ requests s.
Proof.
  induction rows as [|row rest IH]; intros n c s T; [reflexivity|].
  pose proof (import_row_keeps_session w false n row c s T) as [K _].
  simpl import_rows; unfold bind at 1.
  simpl filter.
  destruct (structurally_valid row) eqn:V.
  - pose proof (import_row_request w n row c s V T) as R.
    destruct (add_entry_to_wallabag_returns w
                (strip (nth 1 row [])) (Some (strip (nth 0 row [])))
                (row_tags row)
                (add_log INFO (Processing (strip (nth 0 row []))
                                 (strip (nth 1 row []))) s))
      as (r & s2 & Er).
    rewrite (import_row_valid w false n row c s V) in K, R |- *.
    cbv zeta in K, R |- *; rewrite Er in K, R |- *; simpl in K, R.
    rewrite IH by (rewrite K; exact T).
    rewrite K, R; simpl; rewrite <- app_assoc; reflexivity.
  - assert (exists m, import_row w false n row c s
                      = (Returned (skipped_incr c), add_log WARNING m s))
      as (m & Em).
    { apply structurally_valid_false in V as [V|[V1 V2]].
      - eexists; apply import_row_short, V.
      - eexists; apply import_row_blank_url; assumption. }
    rewrite Em; rewrite IH by exact T; reflexivity.
Qed.

End CsvImportMore.

(** X9: an import of a readable file returns [True] and accounts for
    every row once: the numbers it reports as imported, errors and skipped
    add up to the number of rows read, less the first row when the first
    line was taken for a header. *)
Theorem import_from_csv_counts_every_row (w : world) (f : csv_text)
  (dry_run : bool) (s : state) :
  (has_header f = true -> reader f <> []) ->
  exists c s',
    import_from_csv w (Some f) dry_run s = (Returned true, report c s')
    /\ counted c
       = (List.length (reader f) - (if has_header f then 1 else 0))%nat.
Proof.
  intros H.
  destruct (data_rows_some f H) as (rows & D).
  destruct (import_rows_counts w dry_run rows 1 no_counts
              (import_started dry_run s)) as (c & s' & E & Hs & Hv & _).
  exists c, s'; split.
  - rewrite import_from_csv_report, D, E; reflexivity.
  - rewrite <- (data_rows_length f rows D), <- (count_total rows).
    unfold counted; simpl in *; lia.
Qed.

Lemma import_from_csv_counts_every_row_witness :
  has_header with_header = true
  /\ exists c s',
       import_from_csv (serving []) (Some with_header) false (started None)
       = (Returned true, report c s')
       /\ counted c = 2%nat.
Proof.
  split; [reflexivity|].
  apply (import_from_csv_counts_every_row (serving []) with_header false
           (started None)).
  intros _; discriminate.
Defined.

(** X10: a dry run predicts the live run of the same file: both skip the
    same number of rows, the dry run reports no error, and the number it
    reports as imported is the number the live run imports plus the
    number the live run fails on, whatever the server does. *)
Theorem dry_run_predicts_live_run (w w' : world) (f : csv_text)
  (s s' : state) :
  (has_header f = true -> reader f <> []) ->
  exists cd sd cl sl,
    import_from_csv w' (Some f) true s' = (Returned true, report cd sd)
    /\ import_from_csv w (Some f) false s = (Returned true, report cl sl)
    /\ skipped_count cd = skipped_count cl
    /\ error_count cd = 0%nat
    /\ imported_count cd = (imported_count cl + error_count cl)%nat.
Proof.
  intros H.
  destruct (data_rows_some f H) as (rows & D).
  destruct (import_rows_counts w' true rows 1 no_counts
              (import_started true s'))
    as (cd & sd & Ed & Hsd & Hvd & Hdd & _).
  destruct (import_rows_counts w false rows 1 no_counts
              (import_started false s))
    as (cl & sl & El & Hsl & Hvl & _).
  destruct (Hdd eq_refl) as (He & _).
  exists cd, sd, cl, sl.
  rewrite !import_from_csv_report, D, Ed, El; simpl in *.
  repeat split; lia.
Qed.

Lemma dry_run_predicts_live_run_witness :
  exists cd sd cl sl,
    import_from_csv (serving []) (Some three_rows) true (started None)
    = (Returned true, report cd sd)
    /\ import_from_csv listing_down (Some three_rows) false (started None)
       = (Returned true, report cl sl)
    /\ skipped_count cd = skipped_count cl
    /\ error_count cd = 0%nat
    /\ imported_count cd = (imported_count cl + error_count cl)%nat.
Proof.
  apply dry_run_predicts_live_run; discriminate.
Defined.

(** X11: a live import that starts with a token sends one creation
    request for each valid row, in the order of the rows and with that
    token, and no other request; the title is sent when it is not blank
    and the tags are those of column 4. *)
Theorem import_from_csv_one_request_per_valid_row (w : world) (f : csv_text)
  (s : state) (rows : list (list pystr)) :
  truthy_opt (access_token s) = true ->
  data_rows f = Some rows ->
  requests (snd (import_from_csv w (Some f) false s))
  = rev (map (creation_request (access_token s))
           (filter structurally_valid rows))
    ++ requests s.
Proof.
  intros T D.
  destruct (import_from_csv_readable w f false s rows D) as (c & s' & E & ->).
  pose proof (import_rows_requests w rows 1 no_counts
                (import_started false s) T) as R.
  rewrite E in R; exact R.
Qed.

Lemma import_from_csv_one_request_per_valid_row_witness :
  requests (snd (import_from_csv all_conflicts (Some with_header) false
                   logged_in))
  = [POST_entries (Some (lit "token")) (lit "https://example.org/a")
       (Some (lit "Article")) None].
Proof.
  exact (import_from_csv_one_request_per_valid_row all_conflicts with_header
           logged_in (tl (reader with_header)) eq_refl eq_refl).
Defined.

(** X12: an import, dry or live, whatever the file and the server,
    leaves the stored watermark and the exported files as they were. *)
Theorem import_from_csv_same_files (w : world) (csv_file : option csv_text)
  (dry_run : bool) (s : state) :
  same_files s (snd (import_from_csv w csv_file dry_run s)).
Proof.
  destruct csv_file as [f|]; [|split; reflexivity].
  rewrite import_from_csv_report.
  destruct (data_rows f) as [rows|]; [|destruct dry_run; split; reflexivity].
  pose proof (import_rows_same_files w dry_run rows 1 no_counts
                (import_started dry_run s)) as [K1 K2].
  destruct (import_rows w dry_run 1 rows no_counts _) as [[c|e] s'];
    destruct dry_run; split; simpl in *; congruence.
Qed.

(** ** The check cycle, continued *)

Section CycleMore.

Context {DT : DatetimeLib}.
Variable w : world.

Lemma get_entries_sends (since : option Q) (s : state) :
  exists es s' sent,
    get_entries w since s = (Returned es, s')
    /\ requests s' = sent ++ requests s
    /\ (List.length sent <= 2)%nat
    /\ forallb (fun r => is_POST_token r || is_GET_entries r) sent = true.
Proof.
  unfold get_entries, ensure_token, get_access_token, set_access_token,
    logging, send, read, bind, ret; simpl.
  destruct (truthy_opt (access_token s)); simpl;
    [|destruct (oauth_token w _); simpl];
    try (destruct (api_entries w _); simpl);
    do 2 eexists;
    first [ exists [GET_entries (access_token s) (since_param since)];
            repeat split; simpl; lia
          | exists [POST_token]; repeat split; simpl; lia
          | eexists [GET_entries _ _; POST_token];
            repeat split; simpl; lia ].
Qed.

Lemma listed_entries_spec (s : state) :
  exists s', get_entries w (last_check_file s)
               (add_log INFO Checking_for_new_entries s)
             = (Returned (listed_entries w s), s').
Proof.
  unfold listed_entries.
  destruct (get_entries_returns w (last_check_file s)
              (add_log INFO Checking_for_new_entries s))
    as (es & s' & E & _).
  rewrite E; exists s'; reflexivity.
Qed.

End CycleMore.

(** X13: a check cycle, whatever the server lists and whatever the state
    it starts in, writes no file and sends at most two requests, the one
    for the token and the one for the listing: it never requests the
    content of an entry and never creates one. *)
Theorem check_for_new_entries_never_exports {DT : DatetimeLib}
  (w : world) (s : state) :
  let s' := snd (check_for_new_entries w s) in
  output_files s' = output_files s
  /\ exists sent,
       requests s' = sent ++ requests s
       /\ (List.length sent <= 2)%nat
       /\ forallb (fun r => is_POST_token r || is_GET_entries r) sent = true.
Proof.
  destruct (get_entries_sends w (last_check_file s)
              (add_log INFO Checking_for_new_entries s))
    as (es & s1 & sent & E & R & L & F).
  destruct (get_entries_returns w (last_check_file s)
              (add_log INFO Checking_for_new_entries s))
    as (es' & s1' & E' & _ & O).
  rewrite E in E'; injection E' as <- <-.
  cbv zeta; rewrite (check_for_new_entries_cases w s es s1 E).
  destruct es as [|e0 es0]; [|destruct (new_entries _ _)];
    (split; [exact O|exists sent; repeat split; assumption]).
Qed.

(** X14: a check cycle returns exactly when no listed entry is left to
    export after the re-filter, and raises [AttributeError] for the missing
    [export_entry] exactly when one is. *)
Theorem check_for_new_entries_returns_iff {DT : DatetimeLib}
  (w : world) (s : state) :
  let to_export := new_entries (last_check_file s) (listed_entries w s) in
  (fst (check_for_new_entries w s) = Returned tt <-> to_export = [])
  /\ (fst (check_for_new_entries w s)
      = Raised (AttributeError (lit "export_entry")) <-> to_export <> []).
Proof.
  destruct (listed_entries_spec w s) as (s' & E).
  cbv zeta; rewrite (check_for_new_entries_cases w s _ s' E).
  destruct (listed_entries w s) as [|e0 es0] eqn:L.
  - assert (N : new_entries (last_check_file s) [] = [])
      by (unfold new_entries; destruct (last_check_file s) as [t|];
          [destruct (truthy_float t)|]; reflexivity).
    rewrite N; simpl; split; split; intros H; try reflexivity;
      try discriminate; destruct (H eq_refl).
  - destruct (new_entries (last_check_file s) (e0 :: es0)); simpl;
      split; split; intros H; try reflexivity; try discriminate;
      destruct (H eq_refl).
Qed.

Lemma check_for_new_entries_returns_iff_witness :
  fst (check_for_new_entries (DT:=Iso.lib) (serving around_epoch)
         (started (Some (inject_Z 1700000000))))
  = Returned tt
  /\ fst (check_for_new_entries (DT:=Iso.lib) (serving around_epoch)
            (started None))
     = Raised (AttributeError (lit "export_entry")).
Proof.
  split.
  - apply (check_for_new_entries_returns_iff (DT:=Iso.lib)
             (serving around_epoch) (started (Some (inject_Z 1700000000)))).
    reflexivity.
  - apply (check_for_new_entries_returns_iff (DT:=Iso.lib)
             (serving around_epoch) (started None)).
    discriminate.
Defined.


(** X16: filtering with a watermark what was already filtered with an
    earlier one gives what the later watermark gives alone; so a later
    watermark never brings back an entry an earlier one dropped, and the
    re-filter is idempotent. *)
Theorem new_entries_later_watermark {DT : DatetimeLib}
  (T : option Q) (T' : Q) (entries : list entry) :
  truthy_float T' = true ->
  (forall t, T = Some t -> (t <= T')%Q) ->
  new_entries (Some T') (new_entries T entries) = new_entries (Some T') entries.
Proof.
  intros H L; unfold new_entries; rewrite H.
  destruct T as [t|]; [|reflexivity].
  destruct (truthy_float t); [|reflexivity].
  specialize (L t eq_refl).
  induction entries as [|e es IH]; [reflexivity|]; simpl.
  destruct (created_after T' e) eqn:A'.
  - assert (A : created_after t e = true).
    { apply created_after_spec; apply created_after_spec in A'.
      destruct A' as [N|(u & E & Lt)]; [left; exact N|].
      right; exists u; split; [exact E|lra]. }
    rewrite A; simpl; rewrite A', IH; reflexivity.
  - destruct (created_after t e); simpl; [rewrite A'|]; exact IH.
Qed.

Lemma new_entries_later_watermark_witness :
  new_entries (DT:=Iso.lib) (Some (1 # 2))
    (new_entries (DT:=Iso.lib) (Some (inject_Z (-1))) around_epoch)
  = [listed 3 "After" "1970-01-01T00:00:01+00:00"].
Proof.
  rewrite new_entries_later_watermark; [reflexivity|reflexivity|].
  intros t [= <-]; discriminate.
Defined.

(** ** The log of an import *)

Section ImportLog.

Variable w : world.

Lemma add_entry_to_wallabag_log_kept (url : pystr) (title tags : option pystr)
  (s : state) (x : level * message) :
  In x (log s) -> In x (log (snd (add_entry_to_wallabag w url title tags s))).
Proof.
  intros I.
  unfold add_entry_to_wallabag, ensure_token, get_access_token,
    set_access_token, logging, send, read, bind, ret; simpl.
  destruct (truthy_opt (access_token s)); simpl;
    [|destruct (oauth_token w _); simpl];
    try (destruct (api_create w _) as [e|st|]; simpl;
         try destruct (st =? 409)%nat; simpl);
    auto.
Qed.

Lemma import_row_log_kept (dry_run : bool) (n : nat) (row : list pystr)
  (c : counts) (s : state) (x : level * message) :
  In x (log s) -> In x (log (snd (import_row w dry_run n row c s))).
Proof.
  intros I.
  destruct (structurally_valid row) eqn:V.
  - rewrite (import_row_valid w dry_run n row c s V); cbv zeta.
    destruct dry_run; [right; exact I|].
    pose proof (add_entry_to_wallabag_log_kept
                  (strip (nth 1 row [])) (Some (strip (nth 0 row [])))
                  (row_tags row)
                  (add_log INFO (Processing (strip (nth 0 row []))
                                   (strip (nth 1 row []))) s) x
                  (or_intror I)) as K.
    destruct (add_entry_to_wallabag w _ _ _ _) as [[r|e] s2]; exact K.
  - apply structurally_valid_false in V as [V|[V1 V2]].
    + rewrite (import_row_short w dry_run n row c s V); right; exact I.
    + rewrite (import_row_blank_url w dry_run n row c s V1 V2);
        right; exact I.
Qed.

Lemma import_rows_log_kept (dry_run : bool) (rows : list (list pystr)) :
  forall (n : nat) (c : counts) (s : state) (x : level * message),
  In x (log s) -> In x (log (snd (import_rows w dry_run n rows c s))).
Proof.
  induction rows as [|row rest IH]; intros n c s x I; [exact I|].
  simpl import_rows; unfold bind at 1.
  pose proof (import_row_log_kept dry_run n row c s x I) as K.
  destruct (import_row w dry_run n row c s) as [[c'|e] s1]; [|exact K].
  apply IH; exact K.
Qed.

(** The warning of a skipped row carries the number of the row, counted
    from the number the loop starts at. *)
Lemma import_rows_warns (dry_run : bool) (rows : list (list pystr)) :
  forall (n : nat) (c : counts) (s : state) (k : nat) (row : list pystr),
  nth_error rows k = Some row ->
  let final := log (snd (import_rows w dry_run n rows c s)) in
  ((List.length row < 2)%nat ->
   In (WARNING, Row_not_enough_columns (n + k)) final)
  /\ ((2 <= List.length row)%nat -> strip (nth 1 row []) = [] ->
      In (WARNING, Row_empty_url (n + k)) final).
Proof.
  induction rows as [|r rest IH]; intros n c s k row E;
    [destruct k; discriminate|].
  cbv zeta; simpl import_rows; unfold bind at 1 2.
  destruct k as [|k]; simpl in E.
  - injection E as ->; rewrite Nat.add_0_r; split.
    + intros V; rewrite (import_row_short w dry_run n row c s V).
      apply import_rows_log_kept; left; reflexivity.
    + intros V1 V2; rewrite (import_row_blank_url w dry_run n row c s V1 V2).
      apply import_rows_log_kept; left; reflexivity.
  - destruct (import_rows_counts w dry_run [r] n c s)
      as (c1 & s1 & E1 & _).
    simpl in E1; unfold bind in E1.
    destruct (import_row w dry_run n r c s) as [[c'|e] s'];
      [|discriminate].
    replace (n + S k)%nat with (S n + k)%nat by lia.
    exact (IH (S n) c' s' k row E).
Qed.

End ImportLog.

(** X17: the warning logged for a skipped row names the position of the
    row among the rows read after the header, counted from 1: a row of
    fewer than two columns and a row with a blank url in position [k + 1]
    are logged with the number [k + 1]. *)
Theorem import_from_csv_warns_with_row_number (w : world) (f : csv_text)
  (dry_run : bool) (s : state) (rows : list (list pystr)) (k : nat)
  (row : list pystr) :
  data_rows f = Some rows ->
  nth_error rows k = Some row ->
  let final := log (snd (import_from_csv w (Some f) dry_run s)) in
  ((List.length row < 2)%nat ->
   In (WARNING, Row_not_enough_columns (S k)) final)
  /\ ((2 <= List.length row)%nat -> strip (nth 1 row []) = [] ->
      In (WARNING, Row_empty_url (S k)) final).
Proof.
  intros D E.
  destruct (import_from_csv_readable w f dry_run s rows D)
    as (c & s' & Er & ->).
  pose proof (import_rows_warns w dry_run rows 1 no_counts
                (import_started dry_run s) k row E) as [W1 W2].
  rewrite Er in W1, W2; simpl in W1, W2.
  cbv zeta; simpl; split; intros; do 4 right; auto.
Qed.

Lemma import_from_csv_warns_with_row_number_witness :
  In (WARNING, Row_not_enough_columns 2)
     (log (snd (import_from_csv (serving []) (Some with_header) true
                  (started None))))
  /\ In (WARNING, Row_empty_url 3)
        (log (snd (import_from_csv (serving []) (Some three_rows) true
                     (started None)))).
Proof.
  split.
  - apply (import_from_csv_warns_with_row_number (serving []) with_header true
             (started None) (tl (reader with_header)) 1 [lit "only"]
             eq_refl eq_refl).
    simpl; lia.
  - apply (import_from_csv_warns_with_row_number (serving []) three_rows true
             (started None) (reader three_rows) 2 [lit "Blank"; lit "  "]
             eq_refl eq_refl).
    + simpl; lia.
    + reflexivity.
Defined.

(** ** The header heuristic *)

Lemma is_space_spec (c : codepoint) :
  is_space c = true ->
  (9 <= c <= 13 \/ 28 <= c <= 32 \/ c = 133 \/ c = 160 \/ c = 5760
   \/ 8192 <= c <= 8202 \/ c = 8232 \/ c = 8233 \/ c = 8239 \/ c = 8287
   \/ c = 12288)%N.
Proof.
  unfold is_space.
  rewrite !orb_true_iff, !andb_true_iff, !N.leb_le, !N.eqb_eq.
  tauto.
Qed.

Lemma lower_char_space (c : codepoint) :
  is_space c = true -> lower_char c = [c].
Proof.
  intros H; apply is_space_spec in H.
  unfold lower_char.
  destruct ((65 <=? c) && (c <=? 90))%N eqn:A.
  - apply andb_prop in A as [A1 A2]; apply N.leb_le in A1, A2; lia.
  - destruct (c =? 304)%N eqn:B; [apply N.eqb_eq in B; lia|reflexivity].
Qed.

(** A word that lowers to [title] or to [url] holds no white space. *)
Lemma keyword_no_space (u : pystr) :
  lower u = lit "title" \/ lower u = lit "url" ->
  u <> [] /\ Forall (fun c => is_space c = false) u.
Proof.
  intros H; split.
  - intros ->; destruct H; discriminate.
  - apply Forall_forall; intros c I.
    destruct (is_space c) eqn:S; [exfalso|reflexivity].
    assert (L : In c (lower u)).
    { unfold lower; apply in_flat_map; exists c; split; [exact I|].
      rewrite (lower_char_space c S); left; reflexivity. }
    destruct H as [H|H]; rewrite H in L; simpl in L;
      repeat (destruct L as [<-|L]; [discriminate S|]); destruct L.
Qed.

(** Stripping keeps a word without white space that stands in the line. *)
Lemma strip_keeps_word (p u q : pystr) :
  u <> [] -> Forall (fun c => is_space c = false) u ->
  strip (p ++ u ++ q) = lstrip p ++ u ++ rstrip q.
Proof.
  intros N F.
  assert (L : lstrip (p ++ u ++ q) = lstrip p ++ u ++ q).
  { destruct u as [|c u1]; [contradiction|].
    inversion F as [|? ? Hc _]; subst.
    apply (lstrip_app_nonspace p c (u1 ++ q) Hc). }
  unfold strip; rewrite L; unfold rstrip.
  rewrite !rev_app_distr, <- app_assoc.
  destruct (rev u) as [|d u2] eqn:R.
  - apply (f_equal (@rev _)) in R; rewrite rev_involutive in R.
    contradiction.
  - assert (Hd : is_space d = false).
    { apply Forall_rev in F; rewrite R in F.
      inversion F; assumption. }
    simpl app.
    rewrite (lstrip_app_nonspace (rev q) d (u2 ++ rev (lstrip p)) Hd).
    rewrite rev_app_distr.
    change (d :: u2 ++ rev (lstrip p)) with ((d :: u2) ++ rev (lstrip p)).
    rewrite <- R, rev_app_distr, !rev_involutive, <- app_assoc.
    reflexivity.
Qed.

(** X18: the first line is taken for a header as soon as it holds the
    word [title] or the word [url] anywhere and in any mix of upper and
    lower case, be it inside a title or a url of a first data row; the
    first row is then not imported. *)
Theorem has_header_any_case (f : csv_text) (p u q : pystr) :
  readline f = p ++ u ++ q ->
  lower u = lit "title" \/ lower u = lit "url" ->
  has_header f = true
  /\ forall row rest, reader f = row :: rest -> data_rows f = Some rest.
Proof.
  intros E K.
  assert (H : has_header f = true).
  { destruct (keyword_no_space u K) as [N F].
    unfold has_header; cbv zeta.
    rewrite E, (strip_keeps_word p u q N F).
    unfold lower; rewrite !flat_map_app; fold (lower u).
    apply orb_true_iff.
    destruct K as [-> | ->]; [left|right]; apply contains_app. }
  split; [exact H|].
  intros row rest R; unfold data_rows; rewrite H, R; reflexivity.
Qed.

Lemma has_header_any_case_witness :
  data_rows curl_first = Some [[lit "Article"; lit "https://example.org/a"]].
Proof.
  refine (proj2 (has_header_any_case curl_first (lit "C") (lit "url")
                   (lit " manual,https://curl.se/docs" ++ [10%N])
                   eq_refl (or_intror eq_refl)) _ _ eq_refl).
Defined.

(** ** More on the API operations *)

(** With a token held, [get_entry_content] sends one request for
    the entry and returns what the server serves on a 2xx answer; on any
    other answer it returns [None] and logs an error naming the entry. *)
Theorem get_entry_content_result (w : world) (s : state) (id : option Z) :
  truthy_opt (access_token s) = true ->
  let request := GET_entry (access_token s) id in
  let answer := api_entry w (request :: requests s) in
  (forall full,
      answer = Http2xx full ->
      get_entry_content w id s = (Returned (Some full), add_request request s))
  /\ ((forall full, answer <> Http2xx full) ->
      get_entry_content w id s
      = (Returned None,
         add_log ERROR (Get_entry_content_failed id (failure_of answer))
           (add_request request s))).
Proof.
  intros T request answer; subst request answer.
  unfold get_entry_content, ensure_token, logging, send, read, bind, ret.
  simpl; rewrite T; simpl.
  split.
  - intros full ->; reflexivity.
  - intros F; destruct (api_entry w _) as [full| |];
      [destruct (F full eq_refl)|reflexivity|reflexivity].
Qed.

Lemma get_entry_content_result_witness :
  let e := listed 5 "Kept" "2024-01-01T00:00:00+00:00" in
  fst (get_entry_content (serving [e]) (Some 5%Z) logged_in)
  = Returned (Some (full e))
  /\ get_entry_content (content_missing [e]) (Some 5%Z) logged_in
     = (Returned None,
        add_log ERROR (Get_entry_content_failed (Some 5%Z) (Some 404%nat))
          (add_request (GET_entry (Some (lit "token")) (Some 5%Z)) logged_in)).
Proof.
  intros e; split.
  - destruct (get_entry_content_result (serving [e]) logged_in (Some 5%Z)
                eq_refl) as [H _].
    rewrite (H (full e) eq_refl); reflexivity.
  - destruct (get_entry_content_result (content_missing [e]) logged_in
                (Some 5%Z) eq_refl) as [_ H].
    apply H; intros f; discriminate.
Defined.

Section NoToken.

Variable w : world.
Hypothesis refused : forall sent t, oauth_token w sent <> Http2xx t.

Lemma add_entry_to_wallabag_refused (url : pystr) (title tags : option pystr)
  (s : state) :
  truthy_opt (access_token s) = false ->
  exists m,
    add_entry_to_wallabag w url title tags s
    = (Returned Add_failed, add_log ERROR m (add_request POST_token s)).
Proof.
  intros T.
  unfold add_entry_to_wallabag, ensure_token, get_access_token, logging,
    send, read, bind, ret; simpl.
  rewrite T; simpl.
  destruct (oauth_token w _) as [t| |] eqn:E;
    [destruct (refused _ t E)| |]; simpl; eexists; reflexivity.
Qed.

Lemma import_rows_refused (rows : list (list pystr)) :
  forall (n : nat) (c : counts) (s : state),
  truthy_opt (access_token s) = false ->
  exists c' s',
    import_rows w false n rows c s = (Returned c', s')
    /\ imported_count c' = imported_count c
    /\ error_count c' = (error_count c + count_valid rows)%nat
    /\ requests s' = repeat POST_token (count_valid rows) ++ requests s.
Proof.
  induction rows as [|row rest IH]; intros n c s T.
  - exists c, s; unfold count_valid; simpl.
    repeat split; try reflexivity; lia.
  - destruct (count_cons row rest) as [CV _]; rewrite CV.
    simpl import_rows; unfold bind at 1.
    destruct (structurally_valid row) eqn:V.
    + rewrite (import_row_valid w false n row c s V); cbv zeta.
      destruct (add_entry_to_wallabag_refused
                  (strip (nth 1 row [])) (Some (strip (nth 0 row [])))
                  (row_tags row)
                  (add_log INFO (Processing (strip (nth 0 row []))
                                   (strip (nth 1 row []))) s) T)
        as (m & ->).
      cbv beta iota delta [truthy_add].
      destruct (IH (S n) (error_incr c)
                  (add_log ERROR m
                     (add_request POST_token
                        (add_log INFO (Processing (strip (nth 0 row []))
                                         (strip (nth 1 row []))) s))) T)
        as (c' & s' & E & Hi & He & Hr).
      exists c', s'; rewrite E, Hi, He, Hr; simpl.
      repeat split; try lia.
      change (POST_token :: requests s) with ([POST_token] ++ requests s).
      rewrite app_assoc, <- repeat_cons; reflexivity.
    + assert (exists m, import_row w false n row c s
                        = (Returned (skipped_incr c), add_log WARNING m s))
        as (m & ->).
      { apply structurally_valid_false in V as [V|[V1 V2]].
        - eexists; apply import_row_short, V.
        - eexists; apply import_row_blank_url; assumption. }
      destruct (IH (S n) (skipped_incr c) (add_log WARNING m s) T)
        as (c' & s' & E & Hi & He & Hr).
      exists c', s'; rewrite E, Hi, He, Hr; simpl; repeat split; lia.
Qed.

End NoToken.

(** X19: when no token is held and the server grants none, a live import
    asks for a token again for every valid row, sends no creation request,
    imports nothing and counts every valid row as an error. *)
Theorem import_from_csv_without_token (w : world) (f : csv_text) (s : state)
  (rows : list (list pystr)) :
  (forall sent t, oauth_token w sent <> Http2xx t) ->
  truthy_opt (access_token s) = false ->
  data_rows f = Some rows ->
  exists c s',
    import_from_csv w (Some f) false s = (Returned true, report c s')
    /\ imported_count c = 0%nat
    /\ error_count c = count_valid rows
    /\ requests s' = repeat POST_token (count_valid rows) ++ requests s.
Proof.
  intros R T D.
  destruct (import_rows_refused w R rows 1 no_counts
              (import_started false s) T)
    as (c & s' & E & Hi & He & Hr).
  exists c, s'.
  rewrite import_from_csv_report, D, E.
  repeat split; assumption.
Qed.

Lemma import_from_csv_without_token_witness :
  exists c s',
    import_from_csv auth_down (Some with_header) false (started None)
    = (Returned true, report c s')
    /\ imported_count c = 0%nat
    /\ error_count c = 1%nat
    /\ requests s' = [POST_token].
Proof.
  apply (import_from_csv_without_token auth_down with_header (started None)
           (tl (reader with_header))).
  - intros sent t; discriminate.
  - reflexivity.
  - reflexivity.
Defined.

(** ** One run after another *)

Section NextRun.

Context {DT : DatetimeLib}.
Variable w : world.

Lemma get_entries_requests (since : option Q) (s : state) (r : request) :
  In r (requests (snd (get_entries w since s))) ->
  In r (requests s) \/ r = POST_token
  \/ exists token, r = GET_entries token (since_param since).
Proof.
  unfold get_entries, ensure_token, get_access_token, set_access_token,
    logging, send, read, bind, ret; simpl.
  destruct (truthy_opt (access_token s)); simpl;
    [|destruct (oauth_token w _); simpl];
    try (destruct (api_entries w _); simpl);
    intros I; repeat (destruct I as [<-|I]; eauto).
Qed.

Lemma run_once_unfold (s : state) :
  run_once w s
  = match check_for_new_entries w
            (add_log INFO Output_directory (add_log INFO Starting_check s))
    with
    | (Returned _, s') => (Returned tt, add_log INFO Check_completed s')
    | (Raised e, s') => (Raised e, add_log ERROR (Check_error e) s')
    end.
Proof.
  unfold run_once, try_except, bind at 1 2 3; unfold logging at 1 2.
  destruct (check_for_new_entries w _) as [[u|e] s']; reflexivity.
Qed.

Lemma run_once_requests (s : state) :
  requests (snd (run_once w s))
  = requests (snd (get_entries w (last_check_file s)
                     (add_log INFO Checking_for_new_entries
                        (add_log INFO Output_directory
                           (add_log INFO Starting_check s))))).
Proof.
  set (s0 := add_log INFO Output_directory (add_log INFO Starting_check s)).
  destruct (get_entries_returns w (last_check_file s0)
              (add_log INFO Checking_for_new_entries s0))
    as (es & s' & E & _).
  unfold run_once, try_except, bind at 1 2 3; unfold logging at 1 2.
  fold s0; change (last_check_file s) with (last_check_file s0).
  rewrite (check_for_new_entries_cases w s0 es s' E), E.
  destruct es as [|e0 es0]; [|destruct (new_entries _ _)]; reflexivity.
Qed.

End NextRun.

(** X20: a run that completes stores the time it started at, and the
    next run, on whatever server, sends beside the token request only a
    listing request whose [since] is that stored time. *)
Theorem next_run_lists_since_last_start {DT : DatetimeLib}
  (w w' : world) (s : state) :
  fst (run_once w s) = Returned tt ->
  let T := time_time w (requests s) in
  let s1 := snd (run_once w s) in
  last_check_file s1 = Some T
  /\ forall r,
       In r (requests (snd (run_once w' s1))) ->
       In r (requests s1) \/ r = POST_token
       \/ exists token, r = GET_entries token (since_param (Some T)).
Proof.
  intros R T s1.
  assert (W : last_check_file s1 = Some T).
  { subst s1 T.
    set (s0 := add_log INFO Output_directory (add_log INFO Starting_check s)).
    pose proof (check_for_new_entries_watermark w s0) as W.
    revert R; rewrite run_once_unfold; fold s0.
    destruct (check_for_new_entries w s0) as [[u|e] s']; simpl;
      [intros _; exact W|discriminate]. }
  split; [exact W|].
  intros r I; rewrite run_once_requests, W in I.
  apply get_entries_requests in I; exact I.
Qed.

Lemma next_run_lists_since_last_start_witness :
  let s1 := snd (run_once (DT:=Iso.lib) (serving [])
                   (started (Some (inject_Z 1600000000)))) in
  last_check_file s1 = Some (inject_Z 1700000000)
  /\ requests (snd (run_once (DT:=Iso.lib) (serving around_epoch) s1))
     = GET_entries (Some (lit "token")) (Some 1700000000%Z) :: requests s1.
Proof.
  intros s1; split.
  - exact (proj1 (next_run_lists_since_last_start (DT:=Iso.lib) (serving [])
                    (serving around_epoch)
                    (started (Some (inject_Z 1600000000))) eq_refl)).
  - reflexivity.
Defined.
